(** * AthenaConcierge: configuration record, Slack acknowledgement handler,
      HTTP service

    A shallow embedding of [backend/app/config.py],
    [backend/app/integrations/slack_bot.py] and [backend/app/main.py],
    followed by the properties of the specification stated on it.

    The three files are thin layers over pydantic-settings, slack_bolt and
    FastAPI/Starlette.  What the repository writes (field declarations,
    defaults, [model_config], handler bodies, the arguments given to
    [add_middleware]) is transcribed as written; the part of each library
    that those lines switch on is written out next to it and says so. *)

From stdpp Require Import gmap strings list fin_maps.
From Stdlib Require Import ZArith DecimalString.

Open Scope string_scope.

(* ===================================================================== *)
(** ** Python string methods used below                                   *)
(* ===================================================================== *)

(** Strings are sequences of one-byte characters; the methods are given
    for ASCII text, which is what variable names and header names are. *)
Module Text.

(** [s.lower()]. *)
Definition lower_ascii (c : Ascii.ascii) : Ascii.ascii :=
  let n := Ascii.nat_of_ascii c in
  if (65 <=? n)%nat && (n <=? 90)%nat then Ascii.ascii_of_nat (n + 32) else c.

Fixpoint lower (s : string) : string :=
  match s with
  | EmptyString => EmptyString
  | String c s' => String (lower_ascii c) (lower s')
  end.

(** [s.split(",")]. *)
Fixpoint split_commas (s : string) : list string :=
  match s with
  | EmptyString => [EmptyString]
  | String c s' =>
      if decide (Ascii.nat_of_ascii c = 44) then EmptyString :: split_commas s'
      else match split_commas s' with
           | [] => [String c EmptyString]
           | w :: ws => String c w :: ws
           end
  end.

(** [s.strip()]: blanks are the space, the characters 9 to 13 and the
    separators 28 to 31. *)
Definition is_space (c : Ascii.ascii) : bool :=
  let n := Ascii.nat_of_ascii c in
  (n =? 32)%nat || ((9 <=? n)%nat && (n <=? 13)%nat)
  || ((28 <=? n)%nat && (n <=? 31)%nat).

Fixpoint lstrip (s : string) : string :=
  match s with
  | EmptyString => EmptyString
  | String c s' => if is_space c then lstrip s' else s
  end.

Definition strip (s : string) : string :=
  String.rev (lstrip (String.rev (lstrip s))).

End Text.

(* ===================================================================== *)
(** ** backend/app/config.py                                              *)
(* ===================================================================== *)

Module Config.

(** [class Settings(BaseSettings)], config.py:6-28.  [Optional[str]]
    fields are [option string], [str] fields are [string]. *)
Record Settings := {
  SUPABASE_URL : option string;
  SUPABASE_SERVICE_KEY : option string;
  DATABASE_URL : option string;
  ANTHROPIC_API_KEY : option string;
  SLACK_BOT_TOKEN : option string;
  SLACK_APP_TOKEN : option string;
  SLACK_SIGNING_SECRET : option string;
  AWS_ACCESS_KEY_ID : option string;
  AWS_SECRET_ACCESS_KEY : option string;
  AWS_REGION : string;
  SES_EMAIL_ADDRESS : option string;
  SECRET_KEY : string;
  ENVIRONMENT : string
}.

(** The thirteen declared fields, in declaration order. *)
Inductive key :=
| K_SUPABASE_URL | K_SUPABASE_SERVICE_KEY | K_DATABASE_URL
| K_ANTHROPIC_API_KEY
| K_SLACK_BOT_TOKEN | K_SLACK_APP_TOKEN | K_SLACK_SIGNING_SECRET
| K_AWS_ACCESS_KEY_ID | K_AWS_SECRET_ACCESS_KEY | K_AWS_REGION
| K_SES_EMAIL_ADDRESS
| K_SECRET_KEY | K_ENVIRONMENT.

#[global] Instance key_eq_dec : EqDecision key.
Proof. solve_decision. Defined.

Definition model_fields : list key :=
  [ K_SUPABASE_URL; K_SUPABASE_SERVICE_KEY; K_DATABASE_URL;
    K_ANTHROPIC_API_KEY;
    K_SLACK_BOT_TOKEN; K_SLACK_APP_TOKEN; K_SLACK_SIGNING_SECRET;
    K_AWS_ACCESS_KEY_ID; K_AWS_SECRET_ACCESS_KEY; K_AWS_REGION;
    K_SES_EMAIL_ADDRESS;
    K_SECRET_KEY; K_ENVIRONMENT ].

(** The name under which a field is looked up.  No alias and no
    [env_prefix] is configured, so it is the attribute name. *)
Definition field_name (k : key) : string :=
  match k with
  | K_SUPABASE_URL => "SUPABASE_URL"
  | K_SUPABASE_SERVICE_KEY => "SUPABASE_SERVICE_KEY"
  | K_DATABASE_URL => "DATABASE_URL"
  | K_ANTHROPIC_API_KEY => "ANTHROPIC_API_KEY"
  | K_SLACK_BOT_TOKEN => "SLACK_BOT_TOKEN"
  | K_SLACK_APP_TOKEN => "SLACK_APP_TOKEN"
  | K_SLACK_SIGNING_SECRET => "SLACK_SIGNING_SECRET"
  | K_AWS_ACCESS_KEY_ID => "AWS_ACCESS_KEY_ID"
  | K_AWS_SECRET_ACCESS_KEY => "AWS_SECRET_ACCESS_KEY"
  | K_AWS_REGION => "AWS_REGION"
  | K_SES_EMAIL_ADDRESS => "SES_EMAIL_ADDRESS"
  | K_SECRET_KEY => "SECRET_KEY"
  | K_ENVIRONMENT => "ENVIRONMENT"
  end.

(** The right-hand sides of the field declarations. *)
Definition field_default (k : key) : string :=
  match k with
  | K_DATABASE_URL => "sqlite:///./test.db"
  | K_AWS_REGION => "us-east-1"
  | K_SECRET_KEY => "temporary-secret-key-change-in-production"
  | K_ENVIRONMENT => "development"
  | _ => ""
  end.

(** [model_config], config.py:30-33. *)
Record config_dict := { env_file : string; case_sensitive : bool }.
Definition model_config : config_dict :=
  {| env_file := ".env"; case_sensitive := true |}.

(** Reading a field of a loaded record by key; an [Optional[str]] field
    holding [None] reads as [None]. *)
Definition field_value (k : key) (s : Settings) : option string :=
  match k with
  | K_SUPABASE_URL => SUPABASE_URL s
  | K_SUPABASE_SERVICE_KEY => SUPABASE_SERVICE_KEY s
  | K_DATABASE_URL => DATABASE_URL s
  | K_ANTHROPIC_API_KEY => ANTHROPIC_API_KEY s
  | K_SLACK_BOT_TOKEN => SLACK_BOT_TOKEN s
  | K_SLACK_APP_TOKEN => SLACK_APP_TOKEN s
  | K_SLACK_SIGNING_SECRET => SLACK_SIGNING_SECRET s
  | K_AWS_ACCESS_KEY_ID => AWS_ACCESS_KEY_ID s
  | K_AWS_SECRET_ACCESS_KEY => AWS_SECRET_ACCESS_KEY s
  | K_AWS_REGION => Some (AWS_REGION s)
  | K_SES_EMAIL_ADDRESS => SES_EMAIL_ADDRESS s
  | K_SECRET_KEY => Some (SECRET_KEY s)
  | K_ENVIRONMENT => Some (ENVIRONMENT s)
  end.

(** *** What [BaseSettings.__init__] does with these declarations

    The class body is all that config.py writes; turning it into a record
    is the work of pydantic-settings, whose steps for a class of this
    shape (string fields, no alias, no prefix, no nesting) are written
    out here.

    [Settings()] is called without arguments (config.py:35), so the
    sources are, by decreasing priority: the process environment, the
    file named by [env_file], the declared defaults.  The process
    environment is [os.environ], a finite map from names to strings.
    The file is given by its parsed content as python-dotenv hands it
    over for this load, a map from names to values ([None] when there is
    no such file; a line without [=] carries no value and is absent from
    the map).  Parsing expands [${NAME}] references, for which it reads
    the environment: the content is that of one load, not a function of
    the file's text alone. *)

Abbreviation environ := (gmap string string).

(** Whether a name is the name of a declared field. *)
Definition is_field_name (n : string) : bool :=
  bool_decide (n ∈ field_name <$> model_fields).

(** The name a source is asked for, and the names a source offers: both
    as written when [case_sensitive] is set, both in small letters when
    it is not (of two variables that differ by case only, which one
    survives is then left open by this definition). *)
Definition env_name (cfg : config_dict) (k : key) : string :=
  if case_sensitive cfg then field_name k else Text.lower (field_name k).

Definition parse_env_vars (cfg : config_dict) (vars : environ) : environ :=
  if case_sensitive cfg then vars
  else list_to_map ((λ kv, (Text.lower kv.1, kv.2)) <$> map_to_list vars).

(** One lookup per declared field, stored under the field's name. *)
Definition read_fields (cfg : config_dict) (vars : environ) : environ :=
  list_to_map
    (omap (λ k, (λ v, (field_name k, v)) <$> vars !! env_name cfg k)
          model_fields).

(** The environment source yields the declared fields only. *)
Definition env_settings (cfg : config_dict) (env : environ) : environ :=
  read_fields cfg (parse_env_vars cfg env).

(** The file source yields the declared fields and, besides, every
    other entry of the file that has a non-empty value. *)
Definition dotenv_settings (cfg : config_dict) (file : option environ) : environ :=
  match file with
  | None => ∅
  | Some vars =>
      let vars' := parse_env_vars cfg vars in
      read_fields cfg vars'
        ∪ filter (λ kv, (kv.1 ∉ env_name cfg <$> model_fields) ∧ kv.2 ≠ "") vars'
  end.

(** Merged input of the validation step: the environment wins. *)
Definition settings_input (cfg : config_dict) (env : environ)
    (file : option environ) : environ :=
  env_settings cfg env ∪ dotenv_settings cfg file.

Inductive ValidationError :=
| extra_forbidden (names : list string).

Inductive result (A : Type) :=
| Ok (a : A)
| Err (e : ValidationError).
Arguments Ok {A} a.
Arguments Err {A} e.

(** The value a field takes: the input under its name, else its
    declared default. *)
Definition pick (data : environ) (k : key) : string :=
  default (field_default k) (data !! field_name k).

(** Validation.  [BaseSettings] forbids extra inputs and [model_config]
    does not relax it, so an input name that is no field is an error.
    Every supplied value is a string, which both [str] and
    [Optional[str]] accept unchanged: there is no other check. *)
Definition model_validate (data : environ) : result Settings :=
  let extra := filter (λ n, is_field_name n = false) (map_to_list data).*1 in
  match extra with
  | [] =>
      Ok {| SUPABASE_URL := Some (pick data K_SUPABASE_URL);
            SUPABASE_SERVICE_KEY := Some (pick data K_SUPABASE_SERVICE_KEY);
            DATABASE_URL := Some (pick data K_DATABASE_URL);
            ANTHROPIC_API_KEY := Some (pick data K_ANTHROPIC_API_KEY);
            SLACK_BOT_TOKEN := Some (pick data K_SLACK_BOT_TOKEN);
            SLACK_APP_TOKEN := Some (pick data K_SLACK_APP_TOKEN);
            SLACK_SIGNING_SECRET := Some (pick data K_SLACK_SIGNING_SECRET);
            AWS_ACCESS_KEY_ID := Some (pick data K_AWS_ACCESS_KEY_ID);
            AWS_SECRET_ACCESS_KEY := Some (pick data K_AWS_SECRET_ACCESS_KEY);
            AWS_REGION := pick data K_AWS_REGION;
            SES_EMAIL_ADDRESS := Some (pick data K_SES_EMAIL_ADDRESS);
            SECRET_KEY := pick data K_SECRET_KEY;
            ENVIRONMENT := pick data K_ENVIRONMENT |}
  | _ => Err (extra_forbidden extra)
  end.

(** Gathering the sources, then validating, under a given configuration. *)
Definition BaseSettings_init (cfg : config_dict) (env : environ)
    (file : option environ) : result Settings :=
  model_validate (settings_input cfg env file).

(** [settings = Settings()], config.py:35, as a function of what the
    process finds around it: [env] is the environment and [file] the
    content of the file [env_file model_config]. *)
Definition load (env : environ) (file : option environ) : result Settings :=
  BaseSettings_init model_config env file.

(** The record the declarations alone describe. *)
Definition defaults : Settings :=
  {| SUPABASE_URL := Some "";
     SUPABASE_SERVICE_KEY := Some "";
     DATABASE_URL := Some "sqlite:///./test.db";
     ANTHROPIC_API_KEY := Some "";
     SLACK_BOT_TOKEN := Some "";
     SLACK_APP_TOKEN := Some "";
     SLACK_SIGNING_SECRET := Some "";
     AWS_ACCESS_KEY_ID := Some "";
     AWS_SECRET_ACCESS_KEY := Some "";
     AWS_REGION := "us-east-1";
     SES_EMAIL_ADDRESS := Some "";
     SECRET_KEY := "temporary-secret-key-change-in-production";
     ENVIRONMENT := "development" |}.

End Config.

(* ===================================================================== *)
(** ** Calls made on a capability                                         *)
(* ===================================================================== *)

(** A handler that is handed a capability (a logger, a reply function, a
    database session) is a computation that returns a value and leaves
    the list of calls it made, in program order. *)
Module Effects.

Definition Eff (C A : Type) : Type := A * list C.

#[global] Instance Eff_ret {C} : MRet (Eff C) := λ A a, (a, []).
#[global] Instance Eff_bind {C} : MBind (Eff C) := λ A B f m,
  let '(a, t1) := m in let '(b, t2) := f a in (b, (t1 ++ t2)%list).

Definition perform {C} (c : C) : Eff C unit := (tt, [c]).
Definition value {C A} (m : Eff C A) : A := m.1.
Definition trace {C A} (m : Eff C A) : list C := m.2.

End Effects.

(* ===================================================================== *)
(** ** backend/app/integrations/slack_bot.py                              *)
(* ===================================================================== *)

Module SlackBot.
Import Effects.

(** The values considered under the keys of an event: [None], booleans,
    integers and strings.  Slack sends strings under ["text"] and
    ["user"]; lists, objects and floats are left out. *)
Inductive pyval :=
| PyNone
| PyBool (b : bool)
| PyInt (z : Z)
| PyStr (s : string).

(** [str(v)], which is what a replacement field [{v}] of an f-string
    with no format specification inserts. *)
Definition str (v : pyval) : string :=
  match v with
  | PyNone => "None"
  | PyBool true => "True"
  | PyBool false => "False"
  | PyInt z => NilZero.string_of_int (Z.to_int z)
  | PyStr s => s
  end.

(** [d.get(k, dflt)] on a dict with string keys. *)
Definition dict_get (d : gmap string pyval) (k : string) (dflt : pyval) : pyval :=
  default dflt (d !! k).

(** The two capabilities the handler is given; a call is recorded with
    its argument, in program order. *)
Inductive call :=
| logger_info (msg : string)
| say (msg : string).

(** [handle_message(message, say, logger)], slack_bot.py:11-20. *)
Definition handle_message (message : gmap string pyval) : Eff call unit :=
  let text := dict_get message "text" (PyStr "") in
  let user := dict_get message "user" PyNone in
  perform (logger_info ("Received message from " +:+ str user +:+ ": " +:+ str text)) ;;
  perform (say ("Message received: " +:+ str text)).

(** [s] occurs in [t] as a contiguous piece. *)
Definition occurs_in (s t : string) : Prop :=
  ∃ pre post, t = pre +:+ s +:+ post.

(** The messages handed to [say], in order. *)
Definition said (t : list call) : list string :=
  omap (λ c, match c with say msg => Some msg | logger_info _ => None end) t.

(** *** Start-up, slack_bot.py:3-9 and 22-29

    The calls the module makes on slack_bolt and on its own logger when
    it is run as a script.  Each is recorded with the arguments the
    module passes; what the library does inside them is not part of this
    file. *)
Inductive boot_call :=
| App_init (token : option string)
| app_message (keyword : string)
| SocketModeHandler_init (app_token : option string)
| module_logger_info (msg : string)
| handler_start.

(** Module level: [app = App(token=settings.SLACK_BOT_TOKEN)] and the
    decorator [@app.message("")], slack_bot.py:9-11. *)
Definition module_body (settings : Config.Settings) : Eff boot_call unit :=
  perform (App_init (Config.SLACK_BOT_TOKEN settings)) ;;
  perform (app_message "").

(** [start_slack_bot()], slack_bot.py:22-26. *)
Definition start_slack_bot (settings : Config.Settings) : Eff boot_call unit :=
  perform (SocketModeHandler_init (Config.SLACK_APP_TOKEN settings)) ;;
  perform (module_logger_info "Starting Slack bot...") ;;
  perform handler_start.

(** A call into the library may raise, which ends the script: of the
    calls a script would make, those that are made are the ones up to and
    including the first that raises.  [raises] tells which calls raise;
    the second component tells whether the script ran to its end. *)
Fixpoint run_until_raise (raises : boot_call → bool) (calls : list boot_call)
  : list boot_call * bool :=
  match calls with
  | [] => ([], true)
  | c :: calls' =>
      if raises c then ([c], false)
      else let '(made, finished) := run_until_raise raises calls' in
           (c :: made, finished)
  end.

(** Running the file as a script: importing [app.config] builds the
    settings (slack_bot.py:3), then the module body runs, then the guard
    at lines 28-29 calls [start_slack_bot].  A settings error stops the
    import before any call is made. *)
Definition run_as_script (raises : boot_call → bool) (env : gmap string string)
    (file : option (gmap string string)) : Config.result (list boot_call * bool) :=
  match Config.load env file with
  | Config.Ok settings =>
      Config.Ok (run_until_raise raises
                   (trace (module_body settings ;; start_slack_bot settings)))
  | Config.Err e => Config.Err e
  end.

End SlackBot.

(* ===================================================================== *)
(** ** backend/app/main.py                                                *)
(* ===================================================================== *)

Module Main.
Import Effects.

(** *** Requests and responses

    main.py writes two functions and one [add_middleware] call; serving
    a request with them is the work of FastAPI and Starlette, whose
    steps for this application are written out here.  Header names are in
    small letters throughout, as they travel between server and
    application.

    A request as the server hands it to the application: the method in
    upper case, the path without the query string, the header list, the
    body. *)
Record Request := {
  method : string;
  path : string;
  req_headers : list (string * string);
  req_body : string
}.

(** A Python [dict] with string keys and values, in insertion order. *)
Abbreviation dict := (list (string * string)).

Inductive content :=
| JSONObject (d : dict)
| PlainText (s : string).

Record Response := {
  status_code : nat;
  resp_headers : list (string * string);
  resp_body : content
}.

(** First header of that name, as [Headers.get]. *)
Fixpoint get_header (k : string) (l : list (string * string)) : option string :=
  match l with
  | [] => None
  | (k', v) :: l' => if decide (k' = k) then Some v else get_header k l'
  end.

(** All headers but those of that name. *)
Definition remove_header (k : string) (l : list (string * string))
  : list (string * string) :=
  filter (λ kv, kv.1 ≠ k) l.

(** [MutableHeaders.__setitem__]: the first header of that name takes
    the value and later ones are dropped; a new name goes to the end. *)
Fixpoint set_header (k v : string) (l : list (string * string))
  : list (string * string) :=
  match l with
  | [] => [(k, v)]
  | (k', v') :: l' =>
      if decide (k' = k) then (k, v) :: remove_header k l'
      else (k', v') :: set_header k v l'
  end.

(** [MutableHeaders.update]. *)
Definition update_headers (new l : list (string * string))
  : list (string * string) :=
  foldl (λ acc kv, set_header kv.1 kv.2 acc) l new.

(** [MutableHeaders.add_vary_header]. *)
Definition add_vary_header (vary : string) (l : list (string * string))
  : list (string * string) :=
  match get_header "vary" l with
  | Some existing => set_header "vary" (existing +:+ ", " +:+ vary) l
  | None => set_header "vary" vary l
  end.

Definition dq : string := String (Ascii.ascii_of_nat 34) EmptyString.

(** [json.dumps(d, separators=(",", ":"))] for a [dict] whose keys and
    values hold no quote, backslash or control character, as is the case
    of the literals below. *)
Definition json_dumps (d : dict) : string :=
  "{" +:+ String.concat ","
            ((λ kv, dq +:+ kv.1 +:+ dq +:+ ":" +:+ dq +:+ kv.2 +:+ dq) <$> d)
      +:+ "}".

Definition render (c : content) : string :=
  match c with
  | JSONObject d => json_dumps d
  | PlainText s => s
  end.

Definition decimal (n : nat) : string := NilZero.string_of_uint (Nat.to_uint n).

(** [Response.init_headers]: the given headers, then the length and the
    media type of the body unless already given; no length for a status
    that has no body. *)
Definition init_headers (status : nat) (given : list (string * string))
    (media : string) (c : content) : list (string * string) :=
  given
  ++ (if bool_decide (is_Some (get_header "content-length" given))
         || (status <? 200)%nat || bool_decide (status ∈ [204; 304])
      then []
      else [("content-length", decimal (String.length (render c)))])
  ++ (if bool_decide (is_Some (get_header "content-type" given)) then []
      else [("content-type", media)]).

(** What FastAPI makes of the value a path operation returns: a JSON
    response with the route's status code, 200 when the decorator gives
    none, as at main.py:20 and 25. *)
Definition JSONResponse (d : dict) : Response :=
  {| status_code := 200;
     resp_headers := init_headers 200 [] "application/json" (JSONObject d);
     resp_body := JSONObject d |}.

Definition PlainTextResponse (s : string) (status : nat)
    (given : list (string * string)) : Response :=
  {| status_code := status;
     resp_headers := init_headers status given "text/plain; charset=utf-8" (PlainText s);
     resp_body := PlainText s |}.

(** *** The two path operations, main.py:20-27 *)

(** Calls a handler can make on a database session. *)
Inductive db_call :=
| db_execute (statement : string).

(** [root()], main.py:20-22. *)
Definition root : dict :=
  [("message", "AI Concierge API"); ("status", "running")].

(** [health_check(db)], main.py:25-27. *)
Definition health_check {Session : Type} (db : Session) : Eff db_call dict :=
  mret [("status", "healthy"); ("database", "connected")].

(** *** The CORS middleware, main.py:11-17

    The arguments of [add_middleware], and the attributes that
    [CORSMiddleware.__init__] derives from them once at start-up. *)
Definition allow_origins : list string := ["*"].
Definition allow_credentials : bool := true.
Definition allow_methods : list string := ["*"].
Definition allow_headers : list string := ["*"].

(** main.py pins no release of Starlette, and releases differ on three
    points of this middleware, which are therefore left open: the list of
    methods that ["*"] stands for; whether a plain cross-origin answer
    names the request's origin also when the request carries no cookie;
    and whether [vary: Origin] is put on the answer to a request that has
    no [Origin] header. *)
Record starlette := {
  ALL_METHODS : list string;
  echo_origin : bool;
  vary_always : bool
}.

(** The three points as Starlette 0.46 has them. *)
Definition starlette_0_46 : starlette :=
  {| ALL_METHODS := ["DELETE"; "GET"; "HEAD"; "OPTIONS"; "PATCH"; "POST"; "PUT"];
     echo_origin := false;
     vary_always := false |}.

Definition allow_all_origins : bool := bool_decide ("*" ∈ allow_origins).
Definition allow_all_headers : bool := bool_decide ("*" ∈ allow_headers).
Definition preflight_explicit_allow_origin : bool :=
  negb allow_all_origins || allow_credentials.

(** [sorted(SAFELISTED_HEADERS | set(allow_headers))] for the argument
    above, and the same in small letters as the middleware stores it. *)
Definition sorted_allow_headers : list string :=
  ["*"; "Accept"; "Accept-Language"; "Content-Language"; "Content-Type"].
Definition cors_headers : list string := Text.lower <$> sorted_allow_headers.

Definition simple_headers : list (string * string) :=
  (if allow_all_origins then [("access-control-allow-origin", "*")] else [])
  ++ (if allow_credentials then [("access-control-allow-credentials", "true")] else []).

Section Middleware.
Variable lib : starlette.

Definition cors_methods : list string :=
  if bool_decide ("*" ∈ allow_methods) then ALL_METHODS lib else allow_methods.

Definition preflight_headers : list (string * string) :=
  (if preflight_explicit_allow_origin then [("vary", "Origin")]
   else [("access-control-allow-origin", "*")])
  ++ [("access-control-allow-methods", String.concat ", " cors_methods);
      ("access-control-max-age", "600")]
  ++ (if negb allow_all_headers
      then [("access-control-allow-headers", String.concat ", " sorted_allow_headers)]
      else [])
  ++ (if allow_credentials then [("access-control-allow-credentials", "true")] else []).

Definition is_allowed_origin (origin : string) : bool :=
  allow_all_origins || bool_decide (origin ∈ allow_origins).

(** [allow_explicit_origin]. *)
Definition allow_explicit_origin (origin : string) (l : list (string * string))
  : list (string * string) :=
  add_vary_header "Origin" (set_header "access-control-allow-origin" origin l).

(** [preflight_response]. *)
Definition preflight_response (origin requested_method : string)
    (requested_headers : option string) : Response :=
  let h0 := preflight_headers in
  let h1 := if is_allowed_origin origin
            then if preflight_explicit_allow_origin
                 then set_header "access-control-allow-origin" origin h0
                 else h0
            else h0 in
  let f1 := if is_allowed_origin origin then [] else ["origin"] in
  let f2 := if bool_decide (requested_method ∈ cors_methods) then [] else ["method"] in
  let h2 := match requested_headers with
            | Some r => if allow_all_headers
                        then set_header "access-control-allow-headers" r h1
                        else h1
            | None => h1
            end in
  let f3 := match requested_headers with
            | Some r =>
                if allow_all_headers then []
                else if forallb (λ h, bool_decide (Text.strip (Text.lower h) ∈ cors_headers))
                                (Text.split_commas r)
                then [] else ["headers"]
            | None => []
            end in
  match (f1 ++ f2 ++ f3)%list with
  | [] => PlainTextResponse "OK" 200 h2
  | failures =>
      PlainTextResponse ("Disallowed CORS " +:+ String.concat ", " failures) 400 h2
  end.

(** [simple_response] with its [send] wrapper: the headers added to the
    response the application produces. *)
Definition simple_response (origin : string) (has_cookie : bool)
    (r : Response) : Response :=
  let h0 := update_headers simple_headers (resp_headers r) in
  let h1 := if allow_all_origins && (has_cookie || echo_origin lib)
            then allow_explicit_origin origin h0
            else if negb allow_all_origins && is_allowed_origin origin
            then allow_explicit_origin origin h0
            else h0 in
  {| status_code := status_code r; resp_headers := h1; resp_body := resp_body r |}.

(** What an application layer yields for a request: a response, or an
    exception that travels outwards. *)
Inductive outcome :=
| Returned (r : Response)
| Raised.

(** The answer to a request without [Origin] where the release marks it. *)
Definition with_vary_origin (r : Response) : Response :=
  {| status_code := status_code r;
     resp_headers := add_vary_header "Origin" (resp_headers r);
     resp_body := resp_body r |}.

(** [CORSMiddleware.__call__] around an application [inner]. *)
Definition CORSMiddleware (inner : Request → Eff db_call outcome)
    (req : Request) : Eff db_call outcome :=
  match get_header "origin" (req_headers req) with
  | None =>
      if vary_always lib then
        o ← inner req;
        mret (match o with
              | Returned r => Returned (with_vary_origin r)
              | Raised => Raised
              end)
      else inner req
  | Some origin =>
      match (if decide (method req = "OPTIONS")
             then get_header "access-control-request-method" (req_headers req)
             else None) with
      | Some requested_method =>
          mret (Returned (preflight_response origin requested_method
                   (get_header "access-control-request-headers" (req_headers req))))
      | None =>
          o ← inner req;
          mret (match o with
                | Returned r =>
                    Returned (simple_response origin
                                (bool_decide (is_Some (get_header "cookie" (req_headers req)))) r)
                | Raised => Raised
                end)
      end
  end.

End Middleware.

Section App.
(** [app.database] is not among these files.  [get_db] stands for the
    result of resolving [Depends(get_db)] for the request at hand:
    a session, or [None] when the provider raises.  [other_routes]
    stands for what FastAPI answers on its own to every request that
    matches neither path operation (documentation pages, 404, 405). *)
Context {Session : Type}.
Variable lib : starlette.
Variable get_db : option Session.
Variable other_routes : Request → Response.

(** Routing to the path operations registered at main.py:20 and 25. *)
Definition router (req : Request) : Eff db_call outcome :=
  if decide (method req = "GET" ∧ path req = "/") then
    mret (Returned (JSONResponse root))
  else if decide (method req = "GET" ∧ path req = "/health") then
    match get_db with
    | Some db => d ← health_check db; mret (Returned (JSONResponse d))
    | None => mret Raised
    end
  else mret (Returned (other_routes req)).

(** The outermost layer turns an exception that reaches it into a
    plain 500 response. *)
Definition ServerErrorMiddleware (inner : Request → Eff db_call outcome)
    (req : Request) : Eff db_call Response :=
  o ← inner req;
  mret (match o with
        | Returned r => r
        | Raised => PlainTextResponse "Internal Server Error" 500 []
        end).

(** The application object [app] of main.py: error layer, then the
    middleware added at line 11, then the routes. *)
Definition app (req : Request) : Eff db_call Response :=
  ServerErrorMiddleware (CORSMiddleware lib router) req.

End App.

(** A JSON response with a given status and given headers, as FastAPI
    builds for an [HTTPException]. *)
Definition JSONResponse_with (status : nat) (given : list (string * string))
    (d : dict) : Response :=
  {| status_code := status;
     resp_headers := init_headers status given "application/json" (JSONObject d);
     resp_body := JSONObject d |}.

(** A deployment for the closed instances below.  The session provider
    hands out a session.  A request that matches neither path operation
    is answered as FastAPI does when the path is one of the two and the
    method another (405, [allow: GET]) and when the path is unknown
    (404); the documentation pages and the redirection of a trailing
    slash, which no instance below requests, are left out. *)
Definition unmatched (req : Request) : Response :=
  if bool_decide (path req ∈ ["/"; "/health"])
  then JSONResponse_with 405 [("allow", "GET")] [("detail", "Method Not Allowed")]
  else JSONResponse_with 404 [] [("detail", "Not Found")].

Definition sample_app : Request → Eff db_call Response :=
  app starlette_0_46 (Some tt) unmatched.

End Main.

(* ===================================================================== *)
(** ** Properties of the configuration record                             *)
(* ===================================================================== *)

Section ConfigFacts.
Import Config.

(** A source lookup returns the variable of exactly that name for a
    declared field, and nothing for any other name. *)
Lemma lookup_read_fields (vars : gmap string string) (n : string) :
  read_fields model_config vars !! n = if is_field_name n then vars !! n else None.
Proof.
  unfold read_fields, is_field_name, env_name.
  cbn [case_sensitive model_config].
  induction model_fields as [|k ks IH]; [done|].
  rewrite fmap_cons. cbn [omap list_omap].
  destruct (decide (n = field_name k)) as [->|Hne].
  - rewrite bool_decide_eq_true_2 by left.
    destruct (vars !! field_name k) as [v|] eqn:Hv; cbn.
    + by rewrite lookup_insert_eq.
    + rewrite IH. by case_bool_decide.
  - assert (bool_decide (n ∈ field_name k :: (field_name <$> ks))
            = bool_decide (n ∈ field_name <$> ks)) as ->.
    { apply bool_decide_ext. rewrite elem_of_cons. tauto. }
    destruct (vars !! field_name k) as [v|]; cbn.
    + rewrite lookup_insert_ne by done. apply IH.
    + apply IH.
Qed.

Lemma elem_of_model_fields (k : key) : k ∈ model_fields.
Proof. destruct k; unfold model_fields; repeat first [left | right]. Qed.

Lemma is_field_name_field (k : key) : is_field_name (field_name k) = true.
Proof. by destruct k. Qed.

Lemma lookup_read_fields_field (vars : gmap string string) (k : key) :
  read_fields model_config vars !! field_name k = vars !! field_name k.
Proof. by rewrite lookup_read_fields, is_field_name_field. Qed.

(** What reaches validation for a declared field: the environment
    variable of that name, else the file entry of that name. *)
Lemma settings_input_field (env : environ) (file : option environ) (k : key) :
  settings_input model_config env file !! field_name k =
    match env !! field_name k with
    | Some v => Some v
    | None => file ≫= (λ vars, vars !! field_name k)
    end.
Proof.
  unfold settings_input, env_settings.
  change (parse_env_vars model_config env) with env.
  rewrite lookup_union, lookup_read_fields_field.
  destruct file as [vars|]; unfold dotenv_settings.
  - change (parse_env_vars model_config vars) with vars. cbv zeta.
    rewrite lookup_union, lookup_read_fields_field.
    rewrite (map_lookup_filter_None_2 _ vars (field_name k)).
    + cbn. by destruct (env !! field_name k), (vars !! field_name k).
    + right. intros v _ [Hf _]. apply Hf. cbn [fst].
      apply list_elem_of_fmap. exists k. split; [done|].
      apply elem_of_model_fields.
  - rewrite lookup_empty. by destruct (env !! field_name k).
Qed.

(** A record that validation accepts holds, field by field, the
    supplied value or else the declared default. *)
Lemma model_validate_field (data : environ) (s : Settings) (k : key) :
  model_validate data = Ok s → field_value k s = Some (pick data k).
Proof.
  unfold model_validate.
  destruct (filter _ _); [|done].
  intros [= <-]. by destruct k.
Qed.

(** Without a file nothing but declared fields reaches validation, so
    loading succeeds. *)
Lemma load_without_file (env : environ) : ∃ s, load env None = Ok s.
Proof.
  unfold load, BaseSettings_init, model_validate.
  destruct (filter _ _) as [|n l] eqn:Hf; [eauto|].
  assert (n ∈ n :: l) as Hin by left.
  rewrite <- Hf in Hin. apply list_elem_of_filter in Hin as [Hn Hin].
  apply list_elem_of_fmap in Hin as ([n' v] & -> & Hin). cbn in Hn.
  apply elem_of_map_to_list in Hin.
  unfold settings_input, env_settings, dotenv_settings in Hin.
  change (parse_env_vars model_config env) with env in Hin.
  rewrite lookup_union, lookup_empty, lookup_read_fields, Hn in Hin. done.
Qed.

(** Without a file, a field whose exact name the environment does not
    define keeps its declared default, and one it defines takes the
    value. *)
Lemma load_env_field (env : environ) (s : Settings) (k : key) :
  load env None = Ok s →
  field_value k s = Some (default (field_default k) (env !! field_name k)).
Proof.
  intros Hs. rewrite (model_validate_field _ _ _ Hs). unfold pick.
  rewrite settings_input_field. by destruct (env !! field_name k).
Qed.

Lemma field_name_inj (k k' : key) : field_name k = field_name k' → k = k'.
Proof. destruct k, k'; first [done | intros [=]]. Qed.

Lemma field_value_defaults (k : key) :
  field_value k defaults = Some (field_default k).
Proof. by destruct k. Qed.

End ConfigFacts.

(** Concrete loads: the environment has priority over the file; a file
    entry that names no field is refused; and it is the [case_sensitive]
    flag that keeps a small-letter variable from setting a field. *)
Example load_prefers_environment :
  match Config.load {[ "AWS_REGION" := "eu-west-1" ]}
          (Some {[ "AWS_REGION" := "ap-south-1"; "ENVIRONMENT" := "staging" ]}) with
  | Config.Ok s => Some (Config.AWS_REGION s, Config.ENVIRONMENT s)
  | Config.Err _ => None
  end = Some ("eu-west-1", "staging").
Proof. vm_compute. reflexivity. Qed.

Example load_refuses_unknown_file_entry :
  Config.load ∅ (Some {[ "aws_region" := "eu-west-1" ]})
  = Config.Err (Config.extra_forbidden ["aws_region"]).
Proof. vm_compute. reflexivity. Qed.

Example case_insensitive_would_set :
  match Config.BaseSettings_init
          {| Config.env_file := ".env"; Config.case_sensitive := false |}
          {[ "aws_region" := "eu-west-1" ]} None with
  | Config.Ok s => Some (Config.AWS_REGION s)
  | Config.Err _ => None
  end = Some "eu-west-1".
Proof. vm_compute. reflexivity. Qed.

(** C2.  With no environment variable set and no override file, loading
    raises nothing and yields the documented default of every field: the
    empty string for the nine credentials and addresses,
    [sqlite:///./test.db] for DATABASE_URL, [us-east-1] for AWS_REGION,
    the placeholder for SECRET_KEY and [development] for ENVIRONMENT. *)
Theorem C2_defaults_without_environment :
  Config.load ∅ None =
    Config.Ok {| Config.SUPABASE_URL := Some "";
                 Config.SUPABASE_SERVICE_KEY := Some "";
                 Config.DATABASE_URL := Some "sqlite:///./test.db";
                 Config.ANTHROPIC_API_KEY := Some "";
                 Config.SLACK_BOT_TOKEN := Some "";
                 Config.SLACK_APP_TOKEN := Some "";
                 Config.SLACK_SIGNING_SECRET := Some "";
                 Config.AWS_ACCESS_KEY_ID := Some "";
                 Config.AWS_SECRET_ACCESS_KEY := Some "";
                 Config.AWS_REGION := "us-east-1";
                 Config.SES_EMAIL_ADDRESS := Some "";
                 Config.SECRET_KEY := "temporary-secret-key-change-in-production";
                 Config.ENVIRONMENT := "development" |}.
Proof. vm_compute. reflexivity. Qed.

(** C3, as the specification states it, fails: with AWS_REGION set to the
    empty string in the environment, loading succeeds and the region of
    the loaded record is empty. *)
Lemma C3_region_empty_when_set_empty :
  ∃ s, Config.load {[ "AWS_REGION" := "" ]} None = Config.Ok s
       ∧ ¬ (Config.AWS_REGION s ≠ "").
Proof.
  eexists. split; [vm_compute; reflexivity|].
  intros H. by apply H.
Qed.

(** C3, amended.  The region of a loaded record is empty exactly when the
    value supplied for AWS_REGION, by the environment or else by the
    override file, is the empty string; in every other case, and in
    particular when neither source names AWS_REGION, it is non-empty. *)
Theorem C3_region_empty_iff_supplied_empty
    (env : gmap string string) (file : option (gmap string string))
    (s : Config.Settings) :
  Config.load env file = Config.Ok s →
  (Config.AWS_REGION s = "" ↔
     match env !! "AWS_REGION" with
     | Some v => v = ""
     | None => ∃ vars, file = Some vars ∧ vars !! "AWS_REGION" = Some ""
     end).
Proof.
  intros Hs.
  pose proof (model_validate_field _ _ Config.K_AWS_REGION Hs) as Hr.
  cbn in Hr. injection Hr as ->. unfold Config.pick.
  rewrite (settings_input_field env file Config.K_AWS_REGION). cbn.
  destruct (env !! "AWS_REGION") as [v|]; cbn; [done|].
  destruct file as [vars|]; cbn.
  - destruct (vars !! "AWS_REGION") as [v|] eqn:Hv; cbn.
    + split; [intros ->; eauto|]. intros (vars' & [= <-] & Hv'). congruence.
    + split; [done|]. intros (vars' & [= <-] & Hv'). congruence.
  - split; [done|]. by intros (vars' & ? & _).
Qed.

Lemma C3_region_empty_iff_supplied_empty_witness :
  ∃ s, Config.load {[ "AWS_REGION" := "eu-west-1" ]} None = Config.Ok s
       ∧ (Config.AWS_REGION s = "" ↔ "eu-west-1" = "").
Proof.
  eexists. split; [vm_compute; reflexivity|].
  exact (C3_region_empty_iff_supplied_empty
           {[ "AWS_REGION" := "eu-west-1" ]} None _ eq_refl).
Defined.

(** C4.  For every declared key K and every value V, loading with K set
    to V as the only environment variable and without an override file
    succeeds, and every field other than K holds what it holds in the
    all-defaults record. *)
Theorem C4_single_override_leaves_other_fields (K : Config.key) (V : string) :
  ∃ s, Config.load {[ Config.field_name K := V ]} None = Config.Ok s
       ∧ ∀ K', K' ≠ K →
           Config.field_value K' s = Config.field_value K' Config.defaults.
Proof.
  destruct (load_without_file {[ Config.field_name K := V ]}) as [s Hs].
  exists s. split; [done|]. intros K' Hne.
  rewrite (load_env_field _ _ K' Hs), field_value_defaults.
  rewrite lookup_singleton_ne; [done|].
  intros Heq. apply Hne. symmetry. by apply field_name_inj.
Qed.

(* ===================================================================== *)
(** ** Properties of the acknowledgement handler                          *)
(* ===================================================================== *)

Section SlackBotFacts.
Import Effects SlackBot.

Lemma string_app_nil_r (s : string) : s +:+ "" = s.
Proof.
  induction s as [|c s IH]; [done|].
  change (String c (s +:+ "") = String c s). by rewrite IH.
Qed.

Lemma string_app_assoc (s t u : string) : (s +:+ t) +:+ u = s +:+ t +:+ u.
Proof.
  induction s as [|c s IH]; [done|].
  change (String c ((s +:+ t) +:+ u) = String c (s +:+ t +:+ u)).
  by rewrite IH.
Qed.

(** The handler always makes the same two calls, whatever the event
    holds. *)
Lemma handle_message_calls (message : gmap string pyval) :
  handle_message message =
    (tt, [ logger_info ("Received message from "
                        +:+ str (dict_get message "user" PyNone) +:+ ": "
                        +:+ str (dict_get message "text" (PyStr "")));
           say ("Message received: "
                +:+ str (dict_get message "text" (PyStr ""))) ]).
Proof. reflexivity. Qed.

Lemma occurs_in_middle (pre s post : string) : occurs_in s (pre +:+ s +:+ post).
Proof. by exists pre, post. Qed.

Lemma occurs_in_end (pre s : string) : occurs_in s (pre +:+ s).
Proof. exists pre, "". by rewrite string_app_nil_r. Qed.

End SlackBotFacts.

(** Concrete events: none of the two keys, and a text that is a number. *)
Example handle_message_empty_event :
  SlackBot.handle_message ∅ =
    (tt, [ SlackBot.logger_info "Received message from None: ";
           SlackBot.say "Message received: " ]).
Proof. vm_compute. reflexivity. Qed.

Example handle_message_number_text :
  SlackBot.handle_message
    {[ "text" := SlackBot.PyInt (-42); "user" := SlackBot.PyStr "U123" ]} =
    (tt, [ SlackBot.logger_info "Received message from U123: -42";
           SlackBot.say "Message received: -42" ]).
Proof. vm_compute. reflexivity. Qed.

(** C1.  For an event whose text is the string T, or that has no text (T
    then being the empty string), with any sender or none, the handler
    makes exactly two calls and nothing else: one [logger.info] with a
    record in which the sender (as the f-string renders it, [None] when
    there is none) and T both occur, then one [say] with
    ["Message received: " + T]. *)
Theorem C1_handle_message_replies_once
    (message : gmap string SlackBot.pyval) (T : string) :
  message !! "text" = Some (SlackBot.PyStr T)
    ∨ (message !! "text" = None ∧ T = "") →
  ∃ record,
    SlackBot.handle_message message =
      (tt, [ SlackBot.logger_info record;
             SlackBot.say ("Message received: " +:+ T) ])
    ∧ record = "Received message from "
               +:+ SlackBot.str (SlackBot.dict_get message "user" SlackBot.PyNone)
               +:+ ": " +:+ T
    ∧ SlackBot.occurs_in
        (SlackBot.str (SlackBot.dict_get message "user" SlackBot.PyNone)) record
    ∧ SlackBot.occurs_in T record.
Proof.
  intros Htext.
  assert (SlackBot.str (SlackBot.dict_get message "text" (SlackBot.PyStr "")) = T)
    as Ht.
  { unfold SlackBot.dict_get.
    destruct Htext as [-> | [-> ->]]; reflexivity. }
  eexists. rewrite handle_message_calls, Ht.
  split; [reflexivity|]. split; [reflexivity|]. split.
  - apply occurs_in_middle.
  - rewrite <- (string_app_assoc _ ": " T), <- string_app_assoc.
    apply occurs_in_end.
Qed.

Lemma C1_handle_message_replies_once_witness :
  ∃ record,
    SlackBot.handle_message
      {[ "text" := SlackBot.PyStr "hello"; "user" := SlackBot.PyStr "U123" ]} =
      (tt, [ SlackBot.logger_info record;
             SlackBot.say ("Message received: " +:+ "hello") ])
    ∧ record = "Received message from "
               +:+ SlackBot.str
                     (SlackBot.dict_get
                        {[ "text" := SlackBot.PyStr "hello";
                           "user" := SlackBot.PyStr "U123" ]}
                        "user" SlackBot.PyNone)
               +:+ ": " +:+ "hello"
    ∧ SlackBot.occurs_in
        (SlackBot.str
           (SlackBot.dict_get
              {[ "text" := SlackBot.PyStr "hello";
                 "user" := SlackBot.PyStr "U123" ]}
              "user" SlackBot.PyNone)) record
    ∧ SlackBot.occurs_in "hello" record.
Proof.
  apply (C1_handle_message_replies_once
           {[ "text" := SlackBot.PyStr "hello"; "user" := SlackBot.PyStr "U123" ]}
           "hello").
  left. reflexivity.
Defined.

(** C9.  The empty-string fallback is for a missing key only: when the
    event has the key ["text"] with the value [None], the reply is
    ["Message received: None"], not ["Message received: "]. *)
Theorem C9_text_none_is_rendered
    (message : gmap string SlackBot.pyval) :
  message !! "text" = Some SlackBot.PyNone →
  ∃ record,
    SlackBot.handle_message message =
      (tt, [ SlackBot.logger_info record;
             SlackBot.say "Message received: None" ])
    ∧ SlackBot.say "Message received: None" ≠ SlackBot.say "Message received: ".
Proof.
  intros Htext. eexists. rewrite handle_message_calls.
  unfold SlackBot.dict_get at 2 3. rewrite Htext.
  split; [reflexivity | discriminate].
Qed.

Lemma C9_text_none_is_rendered_witness :
  ∃ record,
    SlackBot.handle_message
      {[ "text" := SlackBot.PyNone; "user" := SlackBot.PyStr "U123" ]} =
      (tt, [ SlackBot.logger_info record;
             SlackBot.say "Message received: None" ])
    ∧ SlackBot.say "Message received: None" ≠ SlackBot.say "Message received: ".
Proof.
  apply (C9_text_none_is_rendered
           {[ "text" := SlackBot.PyNone; "user" := SlackBot.PyStr "U123" ]}).
  reflexivity.
Defined.

(* ===================================================================== *)
(** ** Properties of the HTTP service                                     *)
(* ===================================================================== *)

Section HeaderFacts.
Import Main.

Example split_and_strip :
  Text.split_commas "x-token, Accept,,b" = ["x-token"; " Accept"; ""; "b"]
  ∧ Text.split_commas "" = [""]
  ∧ Text.strip "  X-Token " = "X-Token"
  ∧ Text.strip "   " = ""
  ∧ Text.lower "Content-Type" = "content-type".
Proof. vm_compute. repeat split. Qed.

Lemma get_header_remove_ne (k k' : string) (l : list (string * string)) :
  k ≠ k' → get_header k' (remove_header k l) = get_header k' l.
Proof.
  intros Hne. unfold remove_header.
  induction l as [|[k0 v0] l IH]; [done|].
  rewrite filter_cons. cbn [fst get_header].
  destruct (decide (k0 ≠ k)) as [Hk|Hk]; cbn [get_header].
  - by rewrite IH.
  - apply dec_stable in Hk as ->.
    rewrite decide_False by done. apply IH.
Qed.

Lemma get_header_set_eq (k v : string) (l : list (string * string)) :
  get_header k (set_header k v l) = Some v.
Proof.
  induction l as [|[k0 v0] l IH]; cbn.
  - by rewrite decide_True.
  - destruct (decide (k0 = k)); cbn.
    + by rewrite decide_True.
    + by rewrite decide_False.
Qed.

Lemma get_header_set_ne (k k' v : string) (l : list (string * string)) :
  k ≠ k' → get_header k' (set_header k v l) = get_header k' l.
Proof.
  intros Hne. induction l as [|[k0 v0] l IH]; cbn.
  - by rewrite decide_False.
  - destruct (decide (k0 = k)) as [->|Hk]; cbn.
    + rewrite !decide_False by done. by apply get_header_remove_ne.
    + by rewrite IH.
Qed.

Lemma get_header_add_vary_ne (k v : string) (l : list (string * string)) :
  "vary" ≠ k → get_header k (add_vary_header v l) = get_header k l.
Proof.
  intros Hne. unfold add_vary_header.
  destruct (get_header "vary" l); by apply get_header_set_ne.
Qed.

Lemma update_simple_headers (l : list (string * string)) :
  update_headers simple_headers l =
    set_header "access-control-allow-credentials" "true"
      (set_header "access-control-allow-origin" "*" l).
Proof. reflexivity. Qed.

Lemma simple_response_headers (lib : starlette) (origin : string) (c : bool)
    (r : Response) :
  resp_headers (simple_response lib origin c r) =
    if c || echo_origin lib
    then allow_explicit_origin origin (update_headers simple_headers (resp_headers r))
    else update_headers simple_headers (resp_headers r).
Proof. unfold simple_response. by destruct c, (echo_origin lib). Qed.


Lemma simple_response_origin (lib : starlette) (origin : string) (c : bool)
    (r : Response) :
  get_header "access-control-allow-origin"
    (resp_headers (simple_response lib origin c r))
  = Some (if c || echo_origin lib then origin else "*").
Proof.
  rewrite simple_response_headers, update_simple_headers.
  destruct (c || echo_origin lib).
  - unfold allow_explicit_origin.
    rewrite get_header_add_vary_ne by done. apply get_header_set_eq.
  - rewrite get_header_set_ne by done. apply get_header_set_eq.
Qed.



End HeaderFacts.

Section ServiceFacts.
Import Effects Main.
Context {Session : Type}.
Variable lib : starlette.
Variable get_db : option Session.
Variable other_routes : Request → Response.

(** The three ways through the middleware: a preflight is answered on
    the spot; any other request that names an origin has the simple
    headers added to the inner answer; a request that names none gets the
    inner answer, marked [vary: Origin] where the release does so. *)
Lemma CORSMiddleware_preflight (inner : Request → Eff db_call outcome)
    (req : Request) (origin m : string) :
  get_header "origin" (req_headers req) = Some origin →
  method req = "OPTIONS" →
  get_header "access-control-request-method" (req_headers req) = Some m →
  CORSMiddleware lib inner req =
    (Returned (preflight_response lib origin m
                 (get_header "access-control-request-headers" (req_headers req))), []).
Proof.
  intros Ho Hm Hrm. unfold CORSMiddleware.
  by rewrite Ho, decide_True, Hrm.
Qed.

Lemma CORSMiddleware_simple (inner : Request → Eff db_call outcome)
    (req : Request) (origin : string) (r : Response) (t : list db_call) :
  get_header "origin" (req_headers req) = Some origin →
  method req ≠ "OPTIONS"
    ∨ get_header "access-control-request-method" (req_headers req) = None →
  inner req = (Returned r, t) →
  CORSMiddleware lib inner req =
    (Returned (simple_response lib origin
                 (bool_decide (is_Some (get_header "cookie" (req_headers req)))) r), t).
Proof.
  intros Ho Hsimple Hr. unfold CORSMiddleware. rewrite Ho, Hr.
  assert ((if decide (method req = "OPTIONS")
           then get_header "access-control-request-method" (req_headers req)
           else None) = None) as ->.
  { destruct Hsimple as [Hm| ->]; [by rewrite decide_False|by case_decide]. }
  cbn. by rewrite app_nil_r.
Qed.

Lemma CORSMiddleware_no_origin (inner : Request → Eff db_call outcome)
    (req : Request) (r : Response) (t : list db_call) :
  get_header "origin" (req_headers req) = None →
  inner req = (Returned r, t) →
  CORSMiddleware lib inner req =
    (Returned (if vary_always lib then with_vary_origin r else r), t).
Proof.
  intros Ho Hr. unfold CORSMiddleware. rewrite Ho, Hr.
  destruct (vary_always lib); [|done]. cbn. by rewrite app_nil_r.
Qed.

(** An exception of the routes passes through the middleware unless the
    request is a preflight. *)
Lemma CORSMiddleware_raised (inner : Request → Eff db_call outcome)
    (req : Request) (t : list db_call) :
  method req ≠ "OPTIONS" →
  inner req = (Raised, t) →
  CORSMiddleware lib inner req = (Raised, t).
Proof.
  intros Hm Hr. unfold CORSMiddleware. rewrite Hr, decide_False by done.
  destruct (get_header "origin" (req_headers req)), (vary_always lib);
    cbn; by rewrite ?app_nil_r.
Qed.

Lemma ServerErrorMiddleware_returned (inner : Request → Eff db_call outcome)
    (req : Request) (r : Response) (t : list db_call) :
  inner req = (Returned r, t) → ServerErrorMiddleware inner req = (r, t).
Proof.
  intros Hr. unfold ServerErrorMiddleware. rewrite Hr. cbn.
  by rewrite app_nil_r.
Qed.

(** A request that is no preflight gets the status, the body and the
    calls of the routes' answer. *)
Lemma app_not_preflight (req : Request) (r : Response) (t : list db_call) :
  method req ≠ "OPTIONS"
    ∨ get_header "origin" (req_headers req) = None
    ∨ get_header "access-control-request-method" (req_headers req) = None →
  router get_db other_routes req = (Returned r, t) →
  status_code (value (app lib get_db other_routes req)) = status_code r
  ∧ resp_body (value (app lib get_db other_routes req)) = resp_body r
  ∧ trace (app lib get_db other_routes req) = t.
Proof.
  intros Hsimple Hr. unfold app.
  destruct (get_header "origin" (req_headers req)) as [origin|] eqn:Ho.
  - assert (method req ≠ "OPTIONS"
            ∨ get_header "access-control-request-method" (req_headers req) = None)
      as Hs by (destruct Hsimple as [?|[?|?]]; [by left|done|by right]).
    by rewrite (ServerErrorMiddleware_returned _ _ _ _
                  (CORSMiddleware_simple _ req origin r t Ho Hs Hr)).
  - rewrite (ServerErrorMiddleware_returned _ _ _ _
               (CORSMiddleware_no_origin _ req r t Ho Hr)).
    by destruct (vary_always lib).
Qed.

Lemma router_root (req : Request) :
  method req = "GET" → path req = "/" →
  router get_db other_routes req = (Returned (JSONResponse root), []).
Proof. intros Hm Hp. unfold router. by rewrite decide_True. Qed.

Lemma router_health (req : Request) (db : Session) :
  get_db = Some db → method req = "GET" → path req = "/health" →
  router get_db other_routes req
    = (Returned (JSONResponse [("status", "healthy"); ("database", "connected")]), []).
Proof.
  intros Hdb Hm Hp. unfold router.
  rewrite decide_False by (rewrite Hp; intros [_ [=]]).
  rewrite decide_True by done. by rewrite Hdb.
Qed.


End ServiceFacts.

(** Concrete requests that delimit what the middleware adds (release
    0.46): a plain cross-origin GET is told the origin and the
    credentials, not the methods; a preflight for a method outside the
    list is still refused; and the 500 of the error layer carries no
    cross-origin header. *)
Example simple_answer_names_no_methods :
  let answer :=
    Effects.value
      (Main.sample_app
         {| Main.method := "GET"; Main.path := "/";
            Main.req_headers := [("origin", "https://example.org")];
            Main.req_body := "" |}) in
  Main.resp_headers answer =
    [ ("content-length", "49"); ("content-type", "application/json");
      ("access-control-allow-origin", "*");
      ("access-control-allow-credentials", "true") ].
Proof. vm_compute. reflexivity. Qed.

Example preflight_refuses_other_method :
  let answer :=
    Effects.value
      (Main.sample_app
         {| Main.method := "OPTIONS"; Main.path := "/";
            Main.req_headers := [("origin", "https://example.org");
                                 ("access-control-request-method", "TRACE")];
            Main.req_body := "" |}) in
  Main.status_code answer = 400
  ∧ Main.resp_body answer = Main.PlainText "Disallowed CORS method".
Proof. vm_compute. split; reflexivity. Qed.

Example failed_session_answer_has_no_cors_header :
  let answer :=
    Effects.value
      (Main.app Main.starlette_0_46 (@None unit) Main.unmatched
         {| Main.method := "GET"; Main.path := "/health";
            Main.req_headers := [("origin", "https://example.org")];
            Main.req_body := "" |}) in
  Main.status_code answer = 500
  ∧ Main.get_header "access-control-allow-origin" (Main.resp_headers answer) = None.
Proof. vm_compute. split; reflexivity. Qed.

Example other_method_on_known_path :
  let answer :=
    Effects.value
      (Main.sample_app
         {| Main.method := "POST"; Main.path := "/health";
            Main.req_headers := []; Main.req_body := "" |}) in
  Main.status_code answer = 405
  ∧ Main.get_header "allow" (Main.resp_headers answer) = Some "GET".
Proof. vm_compute. split; reflexivity. Qed.

(** C5.  Every GET request to [/], whatever its headers and body, is
    answered with status 200 and the body
    [{"message": "AI Concierge API", "status": "running"}]; no call is
    made on a database session.  This holds for every release of the
    middleware, every session provider and every other route. *)
Theorem C5_root_answers_running
    {Session : Type} (lib : Main.starlette) (get_db : option Session)
    (other_routes : Main.Request → Main.Response) (req : Main.Request) :
  Main.method req = "GET" → Main.path req = "/" →
  let answer := Main.app lib get_db other_routes req in
  Main.status_code (Effects.value answer) = 200
  ∧ Main.resp_body (Effects.value answer)
      = Main.JSONObject [("message", "AI Concierge API"); ("status", "running")]
  ∧ Effects.trace answer = [].
Proof.
  intros Hm Hp.
  apply (app_not_preflight lib get_db other_routes req
           (Main.JSONResponse Main.root) []).
  - left. rewrite Hm. discriminate.
  - by apply router_root.
Qed.

Lemma C5_root_answers_running_witness :
  let answer :=
    Main.sample_app
      {| Main.method := "GET"; Main.path := "/";
         Main.req_headers := [("origin", "https://example.org"); ("cookie", "a=b")];
         Main.req_body := "ignored" |} in
  Main.status_code (Effects.value answer) = 200
  ∧ Main.resp_body (Effects.value answer)
      = Main.JSONObject [("message", "AI Concierge API"); ("status", "running")]
  ∧ Effects.trace answer = [].
Proof.
  apply (C5_root_answers_running Main.starlette_0_46 (Some tt) Main.unmatched);
    reflexivity.
Defined.

(** C6.  When the session is acquired, every GET request to [/health] is
    answered with status 200 and the body
    [{"status": "healthy", "database": "connected"}], and the handler makes
    no call on the session. *)
Theorem C6_health_answers_connected
    {Session : Type} (lib : Main.starlette) (get_db : option Session)
    (db : Session)
    (other_routes : Main.Request → Main.Response) (req : Main.Request) :
  get_db = Some db →
  Main.method req = "GET" → Main.path req = "/health" →
  let answer := Main.app lib get_db other_routes req in
  Main.status_code (Effects.value answer) = 200
  ∧ Main.resp_body (Effects.value answer)
      = Main.JSONObject [("status", "healthy"); ("database", "connected")]
  ∧ Effects.trace (Main.health_check db) = []
  ∧ Effects.trace answer = [].
Proof.
  intros Hdb Hm Hp.
  destruct (app_not_preflight lib get_db other_routes req
              (Main.JSONResponse [("status", "healthy"); ("database", "connected")]) [])
    as (Hs & Hb & Ht).
  - left. rewrite Hm. discriminate.
  - by apply (router_health get_db other_routes req db).
  - done.
Qed.

Lemma C6_health_answers_connected_witness :
  let answer :=
    Main.sample_app
      {| Main.method := "GET"; Main.path := "/health";
         Main.req_headers := []; Main.req_body := "" |} in
  Main.status_code (Effects.value answer) = 200
  ∧ Main.resp_body (Effects.value answer)
      = Main.JSONObject [("status", "healthy"); ("database", "connected")]
  ∧ Effects.trace (Main.health_check tt) = []
  ∧ Effects.trace answer = [].
Proof.
  apply (C6_health_answers_connected Main.starlette_0_46 (Some tt) tt Main.unmatched);
    reflexivity.
Defined.

(** C10.  The result of the health handler does not depend on the
    session it is given: any two sessions give the same body and the same
    (empty) list of calls, and the same answer of the application. *)
Theorem C10_health_check_ignores_session
    {Session : Type} (db1 db2 : Session) :
  Main.health_check db1 = Main.health_check db2
  ∧ ∀ (lib : Main.starlette) (other_routes : Main.Request → Main.Response)
      (req : Main.Request),
      Main.app lib (Some db1) other_routes req
      = Main.app lib (Some db2) other_routes req.
Proof. split; reflexivity. Qed.




(* ===================================================================== *)
(** ** Further properties of the configuration record                     *)
(* ===================================================================== *)

Section ConfigMore.
Import Config.

Lemma is_field_name_inv (n : string) :
  is_field_name n = true → ∃ k, n = field_name k.
Proof.
  unfold is_field_name. intros Hn%bool_decide_eq_true.
  apply list_elem_of_fmap in Hn as (k & -> & _). eauto.
Qed.

(** Validation accepts an input all of whose names are fields, and
    refuses one that holds any other name, reporting that name. *)
Lemma model_validate_accepts (data : environ) :
  (∀ n v, data !! n = Some v → is_field_name n = true) →
  ∃ s, model_validate data = Ok s.
Proof.
  intros Hall. unfold model_validate.
  destruct (filter _ _) as [|n l] eqn:Hf; [eauto|].
  assert (n ∈ n :: l) as Hin by left.
  rewrite <- Hf in Hin. apply list_elem_of_filter in Hin as [Hn Hin].
  apply list_elem_of_fmap in Hin as ([n' v] & -> & Hin). cbn in Hn.
  apply elem_of_map_to_list in Hin. apply Hall in Hin. congruence.
Qed.

Lemma model_validate_refuses (data : environ) (n v : string) :
  data !! n = Some v → is_field_name n = false →
  ∃ names, model_validate data = Err (extra_forbidden names) ∧ n ∈ names.
Proof.
  intros Hn Hf. unfold model_validate.
  assert (n ∈ filter (λ n, is_field_name n = false) (map_to_list data).*1) as Hin.
  { apply list_elem_of_filter. split; [done|].
    apply list_elem_of_fmap. exists (n, v). split; [done|].
    by apply elem_of_map_to_list. }
  destruct (filter _ _) as [|n0 l]; [by apply elem_of_nil in Hin|].
  eauto.
Qed.

(** What reaches validation under a name that is no field: only a file
    entry with a non-empty value. *)
Lemma settings_input_other (env : environ) (file : option environ) (n : string) :
  is_field_name n = false →
  settings_input model_config env file !! n =
    match file with
    | Some vars => match vars !! n with
                   | Some v => if decide (v = "") then None else Some v
                   | None => None
                   end
    | None => None
    end.
Proof.
  intros Hn. unfold settings_input, env_settings.
  change (parse_env_vars model_config env) with env.
  rewrite lookup_union, lookup_read_fields, Hn.
  destruct file as [vars|]; unfold dotenv_settings.
  - change (parse_env_vars model_config vars) with vars. cbv zeta.
    rewrite lookup_union, lookup_read_fields, Hn.
    change (env_name model_config <$> model_fields)
      with (field_name <$> model_fields).
    destruct (vars !! n) as [v|] eqn:Hv.
    + destruct (decide (v = "")) as [->|Hne].
      * rewrite (map_lookup_filter_None_2 _ vars n); [done|].
        right. intros v' Hv' [_ Hne]. cbn in Hne. congruence.
      * erewrite (map_lookup_filter_Some_2 _ vars n v); [done|done|].
        split; [|done]. cbn. unfold is_field_name in Hn.
        by apply bool_decide_eq_false in Hn.
    + rewrite (map_lookup_filter_None_2 _ vars n); [done|by left].
  - by rewrite lookup_empty.
Qed.

Lemma lower_field_name_inj (k k' : key) :
  Text.lower (field_name k) = Text.lower (field_name k') → k = k'.
Proof. destruct k, k'; first [done | intros [=]]. Qed.

(** A declared name written in another letter case is no declared name. *)
Lemma other_case_is_no_field (n : string) (k : key) :
  n ≠ field_name k → Text.lower n = Text.lower (field_name k) →
  is_field_name n = false.
Proof.
  intros Hne Hlow. destruct (is_field_name n) eqn:Hf; [|done].
  apply is_field_name_inv in Hf as [k' ->].
  apply lower_field_name_inj in Hlow as ->. done.
Qed.

End ConfigMore.

(** C8, as the specification states it, fails for the override file: an
    entry that is a declared key in small letters does not leave the field
    at its default, it makes loading fail, so that no record exists. *)
Lemma C8_other_case_in_file_fails :
  Config.load ∅ (Some {[ "aws_region" := "eu-west-1" ]})
    = Config.Err (Config.extra_forbidden ["aws_region"])
  ∧ ¬ ∃ s, Config.load ∅ (Some {[ "aws_region" := "eu-west-1" ]}) = Config.Ok s
           ∧ Config.field_value Config.K_AWS_REGION s = Some "us-east-1".
Proof.
  split; [vm_compute; reflexivity|].
  intros (s & Hs & _). vm_compute in Hs. discriminate Hs.
Qed.

(** C8, amended.  Names are matched in their exact case in both sources,
    and a declared key written in another letter case never sets the
    field.  As an environment variable it is ignored: in every record
    loaded the field holds what the exact name supplies (environment, else
    override file), else its default; without an override file loading
    succeeds, and the field keeps its default when the exact name is
    undefined.  As an override-file entry with a non-empty value it makes
    loading fail with an extra-input error that names the entry. *)
Theorem C8_other_case_sets_nothing
    (env : gmap string string) (k : Config.key) (n v : string) :
  n ≠ Config.field_name k →
  Text.lower n = Text.lower (Config.field_name k) →
  (∀ file s,
     Config.load (<[ n := v ]> env) file = Config.Ok s →
     Config.field_value k s =
       Some (match env !! Config.field_name k with
             | Some x => x
             | None =>
                 match file ≫= (λ vars, vars !! Config.field_name k) with
                 | Some x => x
                 | None => Config.field_default k
                 end
             end))
  ∧ (∃ s, Config.load (<[ n := v ]> env) None = Config.Ok s
          ∧ (env !! Config.field_name k = None →
             Config.field_value k s = Some (Config.field_default k)))
  ∧ (∀ vars w,
       vars !! n = Some w → w ≠ "" →
       ∃ names, Config.load env (Some vars)
                  = Config.Err (Config.extra_forbidden names)
                ∧ n ∈ names).
Proof.
  intros Hne Hlow. split; [|split].
  - intros file s Hs.
    rewrite (model_validate_field _ _ k Hs). unfold Config.pick.
    rewrite settings_input_field, lookup_insert_ne by done.
    destruct (env !! Config.field_name k); [done|].
    by destruct (file ≫= _).
  - destruct (load_without_file (<[ n := v ]> env)) as [s Hs].
    exists s. split; [done|]. intros Hk.
    rewrite (load_env_field _ _ k Hs).
    by rewrite lookup_insert_ne, Hk.
  - intros vars w Hn Hw.
    assert (Config.is_field_name n = false) as Hf
      by (by apply (other_case_is_no_field n k)).
    apply (model_validate_refuses _ n w); [|done].
    rewrite (settings_input_other env (Some vars) n Hf), Hn.
    by rewrite decide_False.
Qed.

Lemma C8_other_case_sets_nothing_witness :
  (∀ file s,
     Config.load (<[ "aws_region" := "eu-west-1" ]> ∅) file = Config.Ok s →
     Config.field_value Config.K_AWS_REGION s =
       Some (match (∅ : gmap string string) !! Config.field_name Config.K_AWS_REGION with
             | Some x => x
             | None =>
                 match file ≫= (λ vars, vars !! Config.field_name Config.K_AWS_REGION) with
                 | Some x => x
                 | None => Config.field_default Config.K_AWS_REGION
                 end
             end))
  ∧ (∃ s, Config.load (<[ "aws_region" := "eu-west-1" ]> ∅) None = Config.Ok s
          ∧ ((∅ : gmap string string) !! Config.field_name Config.K_AWS_REGION = None →
             Config.field_value Config.K_AWS_REGION s
               = Some (Config.field_default Config.K_AWS_REGION)))
  ∧ (∀ vars w,
       vars !! "aws_region" = Some w → w ≠ "" →
       ∃ names, Config.load ∅ (Some vars)
                  = Config.Err (Config.extra_forbidden names)
                ∧ "aws_region" ∈ names).
Proof.
  apply (C8_other_case_sets_nothing ∅ Config.K_AWS_REGION "aws_region" "eu-west-1").
  - discriminate.
  - reflexivity.
Defined.

(** X1.  Precedence.  In every record that loading yields, each field
    holds the environment variable of its name when there is one, else
    the file entry of its name when there is one, else its declared
    default; no field is left without a value. *)
Theorem load_field_precedence
    (env : gmap string string) (file : option (gmap string string))
    (s : Config.Settings) (k : Config.key) :
  Config.load env file = Config.Ok s →
  Config.field_value k s =
    Some (match env !! Config.field_name k with
          | Some v => v
          | None =>
              match file ≫= (λ vars, vars !! Config.field_name k) with
              | Some v => v
              | None => Config.field_default k
              end
          end).
Proof.
  intros Hs. rewrite (model_validate_field _ _ k Hs). unfold Config.pick.
  rewrite settings_input_field.
  destruct (env !! Config.field_name k); [done|].
  by destruct (file ≫= _).
Qed.

Lemma load_field_precedence_witness :
  ∃ s, Config.load {[ "DATABASE_URL" := "postgresql://db/prod" ]}
         (Some {[ "DATABASE_URL" := "sqlite:///./dev.db";
                  "ENVIRONMENT" := "staging" ]}) = Config.Ok s
       ∧ Config.field_value Config.K_DATABASE_URL s = Some "postgresql://db/prod"
       ∧ Config.field_value Config.K_ENVIRONMENT s = Some "staging"
       ∧ Config.field_value Config.K_AWS_REGION s = Some "us-east-1".
Proof.
  eexists. split; [vm_compute; reflexivity|].
  split; [|split].
  - exact (load_field_precedence {[ "DATABASE_URL" := "postgresql://db/prod" ]}
             (Some {[ "DATABASE_URL" := "sqlite:///./dev.db"; "ENVIRONMENT" := "staging" ]})
             _ Config.K_DATABASE_URL eq_refl).
  - exact (load_field_precedence {[ "DATABASE_URL" := "postgresql://db/prod" ]}
             (Some {[ "DATABASE_URL" := "sqlite:///./dev.db"; "ENVIRONMENT" := "staging" ]})
             _ Config.K_ENVIRONMENT eq_refl).
  - exact (load_field_precedence {[ "DATABASE_URL" := "postgresql://db/prod" ]}
             (Some {[ "DATABASE_URL" := "sqlite:///./dev.db"; "ENVIRONMENT" := "staging" ]})
             _ Config.K_AWS_REGION eq_refl).
Defined.

(** X2.  Without an override file loading never fails, whatever the
    environment holds: variables that name no field are ignored, no value
    is rejected, and each field holds its variable or its default. *)
Theorem load_environment_never_fails (env : gmap string string) :
  ∃ s, Config.load env None = Config.Ok s
       ∧ ∀ k, Config.field_value k s =
                Some (default (Config.field_default k)
                              (env !! Config.field_name k)).
Proof.
  destruct (model_validate_accepts (Config.settings_input Config.model_config env None))
    as [s Hs].
  - intros n v Hn. destruct (Config.is_field_name n) eqn:Hf; [done|].
    by rewrite (settings_input_other env None n Hf) in Hn.
  - exists s. split; [done|]. intros k. by apply load_env_field.
Qed.

(** X3.  Once the override file is parsed, only the thirteen declared
    names are read from the environment: two environments that agree on
    them, and under which the file parses to the same entries (or is
    absent), load to the same result. *)
Theorem load_reads_declared_names_only
    (env1 env2 : gmap string string) (file : option (gmap string string)) :
  (∀ k, env1 !! Config.field_name k = env2 !! Config.field_name k) →
  Config.load env1 file = Config.load env2 file.
Proof.
  intros Hagree. unfold Config.load, Config.BaseSettings_init.
  f_equal. unfold Config.settings_input, Config.env_settings. f_equal.
  change (Config.parse_env_vars Config.model_config env1) with env1.
  change (Config.parse_env_vars Config.model_config env2) with env2.
  apply map_eq. intros n. rewrite !lookup_read_fields.
  destruct (Config.is_field_name n) eqn:Hn; [|done].
  apply is_field_name_inv in Hn as [k ->]. apply Hagree.
Qed.

Lemma load_reads_declared_names_only_witness :
  Config.load ∅ (Some {[ "ENVIRONMENT" := "staging" ]})
  = Config.load {[ "PATH" := "/usr/bin"; "aws_region" := "eu-west-1" ]}
      (Some {[ "ENVIRONMENT" := "staging" ]}).
Proof.
  apply (load_reads_declared_names_only ∅
           {[ "PATH" := "/usr/bin"; "aws_region" := "eu-west-1" ]}).
  intros k. destruct k; reflexivity.
Defined.

(** X4.  Setting one variable on top of any environment (no override
    file): the field of that name takes the value, and every other field
    is what it was without the variable. *)
Theorem load_override_on_any_environment
    (env : gmap string string) (K : Config.key) (V : string) :
  ∃ s s0,
    Config.load (<[ Config.field_name K := V ]> env) None = Config.Ok s
    ∧ Config.load env None = Config.Ok s0
    ∧ ∀ K', Config.field_value K' s =
              if decide (K' = K) then Some V else Config.field_value K' s0.
Proof.
  destruct (load_without_file (<[ Config.field_name K := V ]> env)) as [s Hs].
  destruct (load_without_file env) as [s0 Hs0].
  exists s, s0. split; [done|]. split; [done|]. intros K'.
  rewrite (load_env_field _ _ K' Hs).
  destruct (decide (K' = K)) as [->|Hne].
  - by rewrite lookup_insert_eq.
  - rewrite (load_env_field _ _ K' Hs0), lookup_insert_ne; [done|].
    intros Heq. apply Hne. symmetry. by apply field_name_inj.
Qed.

(** X5.  An override file all of whose entries are declared names never
    makes loading fail, with any environment. *)
Theorem load_accepts_file_of_declared_names
    (env vars : gmap string string) :
  (∀ n v, vars !! n = Some v → Config.is_field_name n = true) →
  ∃ s, Config.load env (Some vars) = Config.Ok s.
Proof.
  intros Hvars. apply model_validate_accepts. intros n v Hn.
  destruct (Config.is_field_name n) eqn:Hf; [done|].
  rewrite (settings_input_other env (Some vars) n Hf) in Hn.
  destruct (vars !! n) as [v'|] eqn:Hv; [|done].
  apply Hvars in Hv. congruence.
Qed.

Lemma load_accepts_file_of_declared_names_witness :
  ∃ s, Config.load {[ "HOME" := "/root" ]}
         (Some {[ "SLACK_BOT_TOKEN" := "xoxb-1"; "AWS_REGION" := "eu-west-1" ]})
       = Config.Ok s.
Proof.
  apply load_accepts_file_of_declared_names.
  intros n v Hn.
  apply lookup_insert_Some in Hn as [[<- _]|[_ Hn]]; [reflexivity|].
  apply lookup_singleton_Some in Hn as [<- _]. reflexivity.
Defined.

(** X6.  An override file with an entry that is no declared name and has
    a non-empty value makes loading fail, with any environment, and the
    error names that entry.  This includes a declared name written in
    another letter case. *)
Theorem load_refuses_unknown_file_name
    (env vars : gmap string string) (n v : string) :
  vars !! n = Some v → Config.is_field_name n = false → v ≠ "" →
  ∃ names, Config.load env (Some vars) = Config.Err (Config.extra_forbidden names)
           ∧ n ∈ names.
Proof.
  intros Hn Hf Hv. apply (model_validate_refuses _ n v); [|done].
  rewrite (settings_input_other env (Some vars) n Hf), Hn.
  by rewrite decide_False.
Qed.

Lemma load_refuses_unknown_file_name_witness :
  ∃ names,
    Config.load {[ "AWS_REGION" := "eu-west-1" ]}
      (Some {[ "Aws_Region" := "ap-south-1"; "SECRET_KEY" := "s3cr3t" ]})
    = Config.Err (Config.extra_forbidden names)
    ∧ "Aws_Region" ∈ names.
Proof.
  apply (load_refuses_unknown_file_name _ _ "Aws_Region" "ap-south-1").
  - reflexivity.
  - reflexivity.
  - discriminate.
Defined.

(* ===================================================================== *)
(** ** Further properties of the Slack bot                                *)
(* ===================================================================== *)

Section SlackBotMore.
Import Effects SlackBot.

Lemma said_handle_message (message : gmap string pyval) :
  said (trace (handle_message message))
  = ["Message received: " +:+ str (dict_get message "text" (PyStr ""))].
Proof. reflexivity. Qed.

(** The calls made are those up to and including the first that raises:
    either none raises, all are made and the script runs to its end; or
    the script splits at its first raising call, which is the last one
    made. *)
Lemma run_until_raise_first (raises : boot_call → bool)
    (calls made : list boot_call) (finished : bool) :
  run_until_raise raises calls = (made, finished) →
  (finished = true ∧ made = calls ∧ Forall (λ c, raises c = false) calls)
  ∨ (finished = false
     ∧ ∃ before c after,
         calls = (before ++ c :: after)%list
         ∧ Forall (λ c', raises c' = false) before
         ∧ raises c = true
         ∧ made = (before ++ [c])%list).
Proof.
  revert made finished.
  induction calls as [|c calls IH]; intros made finished; cbn.
  - intros [= <- <-]. left. split; [done|]. by split.
  - destruct (raises c) eqn:Hc.
    + intros [= <- <-]. right. split; [done|].
      exists [], c, calls. split; [done|]. split; [done|]. by split.
    + destruct (run_until_raise raises calls) as [made' finished'].
      intros [= <- <-].
      destruct (IH made' finished' eq_refl)
        as [(-> & -> & Hall)|(-> & before & c' & after & -> & Hb & Hc' & ->)].
      * left. split; [done|]. split; [done|]. by constructor.
      * right. split; [done|].
        exists (c :: before), c', after.
        split; [done|]. split; [by constructor|]. by split.
Qed.

End SlackBotMore.

(** X7.  The handler reads the keys ["text"] and ["user"] and nothing
    else, and the reply does not depend on the sender: two events with
    the same text get the same reply, and if they also have the same
    sender, the same log record. *)
Theorem handle_message_reads_text_and_user
    (m1 m2 : gmap string SlackBot.pyval) :
  m1 !! "text" = m2 !! "text" →
  SlackBot.said (Effects.trace (SlackBot.handle_message m1))
    = SlackBot.said (Effects.trace (SlackBot.handle_message m2))
  ∧ (m1 !! "user" = m2 !! "user" →
     SlackBot.handle_message m1 = SlackBot.handle_message m2).
Proof.
  intros Ht. split.
  - rewrite !said_handle_message. unfold SlackBot.dict_get. by rewrite Ht.
  - intros Hu. rewrite !handle_message_calls. unfold SlackBot.dict_get.
    by rewrite Ht, Hu.
Qed.

Lemma handle_message_reads_text_and_user_witness :
  let m1 : gmap string SlackBot.pyval :=
    {[ "text" := SlackBot.PyStr "hi"; "user" := SlackBot.PyStr "U1" ]} in
  let m2 : gmap string SlackBot.pyval :=
    {[ "text" := SlackBot.PyStr "hi"; "user" := SlackBot.PyStr "U2";
       "channel" := SlackBot.PyStr "C9" ]} in
  SlackBot.said (Effects.trace (SlackBot.handle_message m1))
    = SlackBot.said (Effects.trace (SlackBot.handle_message m2))
  ∧ (m1 !! "user" = m2 !! "user" →
     SlackBot.handle_message m1 = SlackBot.handle_message m2).
Proof.
  intros m1 m2. apply (handle_message_reads_text_and_user m1 m2).
  reflexivity.
Defined.

(** X8.  The acknowledgement is a faithful echo: two events whose texts
    are strings get the same reply exactly when the texts are the same. *)
Theorem handle_message_reply_determines_text
    (m1 m2 : gmap string SlackBot.pyval) (T1 T2 : string) :
  m1 !! "text" = Some (SlackBot.PyStr T1) →
  m2 !! "text" = Some (SlackBot.PyStr T2) →
  SlackBot.said (Effects.trace (SlackBot.handle_message m1))
    = SlackBot.said (Effects.trace (SlackBot.handle_message m2))
  ↔ T1 = T2.
Proof.
  intros H1 H2. rewrite !said_handle_message. unfold SlackBot.dict_get.
  rewrite H1, H2. cbn [default SlackBot.str].
  split; [|by intros ->]. intros [= Heq]. exact Heq.
Qed.

Lemma handle_message_reply_determines_text_witness :
  let m1 : gmap string SlackBot.pyval :=
    {[ "text" := SlackBot.PyStr "deploy"; "user" := SlackBot.PyStr "U1" ]} in
  let m2 : gmap string SlackBot.pyval :=
    {[ "text" := SlackBot.PyStr "deploy now" ]} in
  SlackBot.said (Effects.trace (SlackBot.handle_message m1))
    = SlackBot.said (Effects.trace (SlackBot.handle_message m2))
  ↔ "deploy" = "deploy now".
Proof.
  intros m1 m2.
  apply (handle_message_reply_determines_text m1 m2); reflexivity.
Defined.

(** X9.  What the reply cannot tell apart: an event without text from one
    whose text is the empty string, and a text that is [None] from the
    text ["None"].  In both cases the two events make the same calls. *)
Theorem handle_message_conflates
    (message : gmap string SlackBot.pyval) :
  SlackBot.handle_message (delete "text" message)
    = SlackBot.handle_message (<[ "text" := SlackBot.PyStr "" ]> message)
  ∧ SlackBot.handle_message (<[ "text" := SlackBot.PyNone ]> message)
    = SlackBot.handle_message (<[ "text" := SlackBot.PyStr "None" ]> message).
Proof.
  rewrite !handle_message_calls. unfold SlackBot.dict_get.
  rewrite lookup_delete_eq, !lookup_insert_eq.
  rewrite lookup_delete_ne, !lookup_insert_ne by done. done.
Qed.

(** A run in which building the application raises: nothing else is
    called. *)
Example run_as_script_stops_at_first_raise :
  SlackBot.run_as_script
    (λ c, match c with SlackBot.App_init _ => true | _ => false end)
    {[ "SLACK_APP_TOKEN" := "xapp-1" ]} None
  = Config.Ok ([SlackBot.App_init (Some "")], false).
Proof. vm_compute. reflexivity. Qed.

(** X10.  Run as a script with no override file, for any environment:
    the calls the module would make are, in this order, [App] with the
    bot token, the registration of the handler under the keyword [""],
    [SocketModeHandler] with the application token, one log record and
    [handler.start()], each token being the variable of that name or the
    empty string when unset.  The calls made are exactly these up to and
    including the first that raises: either none raises and all five are
    made, or the run stops at the first raising call, every call before
    it having been made and none after it. *)
Theorem run_as_script_calls
    (raises : SlackBot.boot_call → bool) (env : gmap string string) :
  let script :=
    [ SlackBot.App_init (Some (default "" (env !! "SLACK_BOT_TOKEN")));
      SlackBot.app_message "";
      SlackBot.SocketModeHandler_init
        (Some (default "" (env !! "SLACK_APP_TOKEN")));
      SlackBot.module_logger_info "Starting Slack bot...";
      SlackBot.handler_start ] in
  ∃ made finished,
    SlackBot.run_as_script raises env None = Config.Ok (made, finished)
    ∧ ((finished = true ∧ made = script
        ∧ Forall (λ c, raises c = false) script)
       ∨ (finished = false
          ∧ ∃ before c after,
              script = (before ++ c :: after)%list
              ∧ Forall (λ c', raises c' = false) before
              ∧ raises c = true
              ∧ made = (before ++ [c])%list)).
Proof.
  intros script. unfold SlackBot.run_as_script.
  destruct (load_without_file env) as [s Hs]. rewrite Hs.
  pose proof (load_env_field env s Config.K_SLACK_BOT_TOKEN Hs) as Hb.
  pose proof (load_env_field env s Config.K_SLACK_APP_TOKEN Hs) as Ha.
  cbn in Hb, Ha.
  assert (Effects.trace (SlackBot.module_body s ;; SlackBot.start_slack_bot s)
          = script) as ->.
  { unfold SlackBot.module_body, SlackBot.start_slack_bot.
    rewrite Hb, Ha. reflexivity. }
  destruct (SlackBot.run_until_raise raises script) as [made finished] eqn:Hrun.
  exists made, finished. split; [done|].
  by apply (run_until_raise_first raises).
Qed.

(* ===================================================================== *)
(** ** Further properties of the HTTP service                             *)
(* ===================================================================== *)

Section ServiceMore.
Import Effects Main.

Lemma get_header_add_vary (v : string) (l : list (string * string)) :
  get_header "vary" (add_vary_header v l)
  = Some (match get_header "vary" l with
          | Some existing => existing +:+ ", " +:+ v
          | None => v
          end).
Proof.
  unfold add_vary_header.
  destruct (get_header "vary" l); apply get_header_set_eq.
Qed.

(** Writing a header whose name is in a list does not change the headers
    whose names are outside it: as a list, with repetitions and order. *)
Lemma filter_remove_header (names : list string) (k : string)
    (l : list (string * string)) :
  k ∈ names →
  filter (λ kv, kv.1 ∉ names) (remove_header k l)
  = filter (λ kv, kv.1 ∉ names) l.
Proof.
  intros Hk. unfold remove_header.
  induction l as [|[k0 v0] l IH]; [done|].
  rewrite (filter_cons (λ kv, kv.1 ≠ k)). cbn [fst].
  destruct (decide (k0 ≠ k)) as [Hne|Heq].
  - rewrite !(filter_cons (λ kv, kv.1 ∉ names)). cbn [fst].
    destruct (decide (k0 ∉ names)); by rewrite IH.
  - apply dec_stable in Heq as ->.
    rewrite (filter_cons (λ kv, kv.1 ∉ names)). cbn [fst].
    by rewrite decide_False by (intros Hn; by apply Hn).
Qed.

Lemma filter_set_header (names : list string) (k v : string)
    (l : list (string * string)) :
  k ∈ names →
  filter (λ kv, kv.1 ∉ names) (set_header k v l)
  = filter (λ kv, kv.1 ∉ names) l.
Proof.
  intros Hk. induction l as [|[k0 v0] l IH]; cbn [set_header].
  - rewrite filter_cons. cbn [fst].
    by rewrite decide_False by (intros Hn; by apply Hn).
  - destruct (decide (k0 = k)) as [->|Hne].
    + rewrite !filter_cons. cbn [fst].
      rewrite !decide_False by (intros Hn; by apply Hn).
      by apply filter_remove_header.
    + rewrite !filter_cons. cbn [fst].
      destruct (decide (k0 ∉ names)); by rewrite IH.
Qed.

Lemma filter_add_vary_header (names : list string) (v : string)
    (l : list (string * string)) :
  "vary" ∈ names →
  filter (λ kv, kv.1 ∉ names) (add_vary_header v l)
  = filter (λ kv, kv.1 ∉ names) l.
Proof.
  intros Hk. unfold add_vary_header.
  destruct (get_header "vary" l); by apply filter_set_header.
Qed.

Lemma filter_simple_response (lib : starlette) (origin : string) (c : bool)
    (r : Response) :
  filter (λ kv, kv.1 ∉ ["access-control-allow-origin";
                         "access-control-allow-credentials"; "vary"])
         (resp_headers (simple_response lib origin c r))
  = filter (λ kv, kv.1 ∉ ["access-control-allow-origin";
                           "access-control-allow-credentials"; "vary"])
           (resp_headers r).
Proof.
  rewrite simple_response_headers, update_simple_headers.
  destruct (c || echo_origin lib).
  - unfold allow_explicit_origin.
    rewrite filter_add_vary_header by set_solver.
    by rewrite !filter_set_header by set_solver.
  - by rewrite !filter_set_header by set_solver.
Qed.

Lemma simple_response_vary (lib : starlette) (origin : string) (c : bool)
    (r : Response) :
  get_header "vary" (resp_headers (simple_response lib origin c r))
  = if c || echo_origin lib
    then Some (match get_header "vary" (resp_headers r) with
               | Some existing => existing +:+ ", " +:+ "Origin"
               | None => "Origin"
               end)
    else get_header "vary" (resp_headers r).
Proof.
  rewrite simple_response_headers, update_simple_headers.
  destruct (c || echo_origin lib).
  - unfold allow_explicit_origin.
    rewrite get_header_add_vary. by rewrite !get_header_set_ne by done.
  - by rewrite !get_header_set_ne by done.
Qed.

Lemma preflight_response_status (lib : starlette) (origin m : string)
    (rh : option string) :
  status_code (preflight_response lib origin m rh)
    = (if bool_decide (m ∈ ALL_METHODS lib) then 200 else 400)
  ∧ resp_body (preflight_response lib origin m rh)
    = PlainText (if bool_decide (m ∈ ALL_METHODS lib) then "OK"
                 else "Disallowed CORS method").
Proof.
  unfold preflight_response.
  change (is_allowed_origin origin) with true.
  change (cors_methods lib) with (ALL_METHODS lib).
  change allow_all_headers with true.
  destruct (bool_decide (m ∈ ALL_METHODS lib)), rh; split; reflexivity.
Qed.

End ServiceMore.

(** X11.  A preflight request (OPTIONS with an [Origin] and an
    [Access-Control-Request-Method] header) never reaches the routes.  Two
    preflights with the same origin, the same requested method and the
    same requested headers get the same answer whatever their paths,
    bodies and other headers, and whatever the session provider and the
    routes are; no call is made on a session; the status is 200 with body
    [OK] when the requested method is one of those the release takes ["*"]
    to stand for, 400 with body [Disallowed CORS method] otherwise. *)
Theorem preflight_never_reaches_routes
    {Session : Type} (lib : Main.starlette) (get_db1 get_db2 : option Session)
    (other1 other2 : Main.Request → Main.Response)
    (req1 req2 : Main.Request) (origin m : string) :
  Main.method req1 = "OPTIONS" → Main.method req2 = "OPTIONS" →
  Main.get_header "origin" (Main.req_headers req1) = Some origin →
  Main.get_header "origin" (Main.req_headers req2) = Some origin →
  Main.get_header "access-control-request-method" (Main.req_headers req1) = Some m →
  Main.get_header "access-control-request-method" (Main.req_headers req2) = Some m →
  Main.get_header "access-control-request-headers" (Main.req_headers req1)
    = Main.get_header "access-control-request-headers" (Main.req_headers req2) →
  Main.app lib get_db1 other1 req1 = Main.app lib get_db2 other2 req2
  ∧ Effects.trace (Main.app lib get_db1 other1 req1) = []
  ∧ Main.status_code (Effects.value (Main.app lib get_db1 other1 req1))
      = (if bool_decide (m ∈ Main.ALL_METHODS lib) then 200 else 400)
  ∧ Main.resp_body (Effects.value (Main.app lib get_db1 other1 req1))
      = Main.PlainText (if bool_decide (m ∈ Main.ALL_METHODS lib) then "OK"
                        else "Disallowed CORS method").
Proof.
  intros Hm1 Hm2 Ho1 Ho2 Hrm1 Hrm2 Hrh. unfold Main.app.
  rewrite (ServerErrorMiddleware_returned _ _ _ _
             (CORSMiddleware_preflight lib _ req1 origin m Ho1 Hm1 Hrm1)).
  rewrite (ServerErrorMiddleware_returned _ _ _ _
             (CORSMiddleware_preflight lib _ req2 origin m Ho2 Hm2 Hrm2)).
  rewrite Hrh. split; [done|]. split; [done|].
  apply preflight_response_status.
Qed.

Lemma preflight_never_reaches_routes_witness :
  let req1 :=
    {| Main.method := "OPTIONS"; Main.path := "/no/such/path";
       Main.req_headers := [("origin", "https://example.org");
                            ("access-control-request-method", "DELETE")];
       Main.req_body := "" |} in
  let req2 :=
    {| Main.method := "OPTIONS"; Main.path := "/health";
       Main.req_headers := [("host", "localhost");
                            ("access-control-request-method", "DELETE");
                            ("origin", "https://example.org")];
       Main.req_body := "{}" |} in
  Main.app Main.starlette_0_46 (Some tt) Main.unmatched req1
    = Main.app Main.starlette_0_46 (@None unit) (λ _, Main.JSONResponse Main.root) req2
  ∧ Effects.trace (Main.app Main.starlette_0_46 (Some tt) Main.unmatched req1) = []
  ∧ Main.status_code
      (Effects.value (Main.app Main.starlette_0_46 (Some tt) Main.unmatched req1))
      = (if bool_decide ("DELETE" ∈ Main.ALL_METHODS Main.starlette_0_46)
         then 200 else 400)
  ∧ Main.resp_body
      (Effects.value (Main.app Main.starlette_0_46 (Some tt) Main.unmatched req1))
      = Main.PlainText (if bool_decide ("DELETE" ∈ Main.ALL_METHODS Main.starlette_0_46)
                        then "OK" else "Disallowed CORS method").
Proof.
  intros req1 req2.
  apply (preflight_never_reaches_routes Main.starlette_0_46 (Some tt) None
           Main.unmatched (λ _, Main.JSONResponse Main.root) req1 req2
           "https://example.org" "DELETE");
    reflexivity.
Defined.

(** X12.  On every request that is no preflight and that the routes
    answer, the middleware leaves the answer as it is apart from three
    headers: same status, same body, same calls, and the list of all
    headers other than [access-control-allow-origin],
    [access-control-allow-credentials] and [vary] is the same list, with
    its repetitions and in its order. *)
Theorem middleware_only_adds_cors_headers
    {Session : Type} (lib : Main.starlette) (get_db : option Session)
    (other_routes : Main.Request → Main.Response)
    (req : Main.Request) (r : Main.Response) (t : list Main.db_call) :
  Main.method req ≠ "OPTIONS"
    ∨ Main.get_header "origin" (Main.req_headers req) = None
    ∨ Main.get_header "access-control-request-method" (Main.req_headers req) = None →
  Main.router get_db other_routes req = (Main.Returned r, t) →
  let answer := Main.app lib get_db other_routes req in
  let others :=
    filter (λ kv : string * string,
              kv.1 ∉ ["access-control-allow-origin";
                      "access-control-allow-credentials"; "vary"]) in
  Main.status_code (Effects.value answer) = Main.status_code r
  ∧ Main.resp_body (Effects.value answer) = Main.resp_body r
  ∧ Effects.trace answer = t
  ∧ others (Main.resp_headers (Effects.value answer)) = others (Main.resp_headers r).
Proof.
  intros Hsimple Hr answer others. subst answer others.
  destruct (app_not_preflight lib get_db other_routes req r t Hsimple Hr)
    as (Hs & Hb & Ht).
  split; [done|]. split; [done|]. split; [done|].
  unfold Main.app.
  destruct (Main.get_header "origin" (Main.req_headers req)) as [origin|] eqn:Ho.
  - assert (Main.method req ≠ "OPTIONS"
            ∨ Main.get_header "access-control-request-method" (Main.req_headers req) = None)
      as Hsm by (destruct Hsimple as [?|[?|?]]; [by left|discriminate|by right]).
    rewrite (ServerErrorMiddleware_returned _ _ _ _
               (CORSMiddleware_simple lib _ req origin r t Ho Hsm Hr)).
    apply filter_simple_response.
  - rewrite (ServerErrorMiddleware_returned _ _ _ _
               (CORSMiddleware_no_origin lib _ req r t Ho Hr)).
    destruct (Main.vary_always lib); [|done].
    apply filter_add_vary_header. do 2 right. left.
Qed.

Lemma middleware_only_adds_cors_headers_witness :
  let req :=
    {| Main.method := "POST"; Main.path := "/health";
       Main.req_headers := [("origin", "https://example.org"); ("cookie", "sid=1")];
       Main.req_body := "" |} in
  let answer := Main.sample_app req in
  Main.status_code (Effects.value answer) = 405
  ∧ filter (λ kv : string * string,
              kv.1 ∉ ["access-control-allow-origin";
                      "access-control-allow-credentials"; "vary"])
           (Main.resp_headers (Effects.value answer))
    = [("allow", "GET"); ("content-length", "31");
       ("content-type", "application/json")].
Proof.
  intros req answer.
  assert (Main.method req ≠ "OPTIONS") as Hm by (subst req; discriminate).
  destruct (middleware_only_adds_cors_headers Main.starlette_0_46 (Some tt)
              Main.unmatched req (Main.unmatched req) []
              (or_introl Hm) eq_refl)
    as (Hs & _ & _ & Hh).
  split; [exact Hs|exact Hh].
Defined.

(** X13.  When the session cannot be acquired, every GET request to
    [/health], cross-origin or not, is answered by the error layer with
    the plain 500 [Internal Server Error], which carries no cross-origin
    header; no call is made on a session. *)
Theorem health_without_session_is_plain_500
    {Session : Type} (lib : Main.starlette)
    (other_routes : Main.Request → Main.Response) (req : Main.Request) :
  Main.method req = "GET" → Main.path req = "/health" →
  Main.app lib (@None Session) other_routes req
    = (Main.PlainTextResponse "Internal Server Error" 500 [], [])
  ∧ Main.get_header "access-control-allow-origin"
      (Main.resp_headers
         (Effects.value (Main.app lib (@None Session) other_routes req)))
    = None.
Proof.
  intros Hm Hp.
  assert (Main.app lib (@None Session) other_routes req
          = (Main.PlainTextResponse "Internal Server Error" 500 [], [])) as Heq.
  { unfold Main.app, Main.ServerErrorMiddleware.
    assert (Main.router (@None Session) other_routes req = (Main.Raised, [])) as Hr.
    { unfold Main.router.
      rewrite decide_False by (rewrite Hp; intros [_ [=]]).
      by rewrite decide_True. }
    rewrite (CORSMiddleware_raised lib _ req [])
      by (done || (rewrite Hm; discriminate)).
    done. }
  split; [done|]. by rewrite Heq.
Qed.

Lemma health_without_session_is_plain_500_witness :
  let req :=
    {| Main.method := "GET"; Main.path := "/health";
       Main.req_headers := [("origin", "https://example.org")];
       Main.req_body := "" |} in
  Main.app Main.starlette_0_46 (@None unit) Main.unmatched req
    = (Main.PlainTextResponse "Internal Server Error" 500 [], [])
  ∧ Main.get_header "access-control-allow-origin"
      (Main.resp_headers
         (Effects.value (Main.app Main.starlette_0_46 (@None unit) Main.unmatched req)))
    = None.
Proof.
  intros req.
  apply (health_without_session_is_plain_500 (Session := unit)
           Main.starlette_0_46 Main.unmatched req);
    reflexivity.
Defined.

(** X14.  A cross-origin request that carries a [Cookie] header, is no
    preflight and is answered by the routes is never told the wildcard:
    [access-control-allow-origin] is the request's own origin, and the
    answer is marked as varying with the origin, [Origin] being the last
    item of its [vary] header.  This holds for every release. *)
Theorem cookie_answer_names_origin
    {Session : Type} (lib : Main.starlette) (get_db : option Session)
    (other_routes : Main.Request → Main.Response)
    (req : Main.Request) (origin : string)
    (r : Main.Response) (t : list Main.db_call) :
  Main.get_header "origin" (Main.req_headers req) = Some origin →
  is_Some (Main.get_header "cookie" (Main.req_headers req)) →
  Main.method req ≠ "OPTIONS"
    ∨ Main.get_header "access-control-request-method" (Main.req_headers req) = None →
  Main.router get_db other_routes req = (Main.Returned r, t) →
  let h := Main.resp_headers (Effects.value (Main.app lib get_db other_routes req)) in
  Main.get_header "access-control-allow-origin" h = Some origin
  ∧ Main.get_header "vary" h
    = Some (match Main.get_header "vary" (Main.resp_headers r) with
            | Some existing => existing +:+ ", " +:+ "Origin"
            | None => "Origin"
            end).
Proof.
  intros Ho Hcookie Hs Hr. unfold Main.app.
  rewrite (ServerErrorMiddleware_returned _ _ _ _
             (CORSMiddleware_simple lib _ req origin r t Ho Hs Hr)).
  unfold Effects.value. cbn [fst].
  rewrite simple_response_origin, simple_response_vary.
  by rewrite bool_decide_eq_true_2.
Qed.

Lemma cookie_answer_names_origin_witness :
  let req :=
    {| Main.method := "GET"; Main.path := "/";
       Main.req_headers := [("origin", "https://example.org"); ("cookie", "sid=1")];
       Main.req_body := "" |} in
  let h := Main.resp_headers (Effects.value (Main.sample_app req)) in
  Main.get_header "access-control-allow-origin" h = Some "https://example.org"
  ∧ Main.get_header "vary" h = Some "Origin".
Proof.
  intros req.
  assert (Main.method req ≠ "OPTIONS") as Hm by (subst req; discriminate).
  exact (cookie_answer_names_origin Main.starlette_0_46 (Some tt) Main.unmatched req
           "https://example.org" (Main.JSONResponse Main.root) []
           eq_refl (ex_intro _ "sid=1" eq_refl) (or_introl Hm) eq_refl).
Defined.

(** X15.  The session provider matters to GET [/health] only: on every
    other request the application answers the same, and makes the same
    calls, whether a session can be acquired or not. *)
Theorem session_consulted_for_health_only
    {Session : Type} (lib : Main.starlette) (get_db1 get_db2 : option Session)
    (other_routes : Main.Request → Main.Response) (req : Main.Request) :
  ¬ (Main.method req = "GET" ∧ Main.path req = "/health") →
  Main.app lib get_db1 other_routes req = Main.app lib get_db2 other_routes req.
Proof.
  intros Hno.
  assert (Main.router get_db1 other_routes req
          = Main.router get_db2 other_routes req) as Hr.
  { unfold Main.router.
    destruct (decide (Main.method req = "GET" ∧ Main.path req = "/")); [done|].
    by rewrite !decide_False by done. }
  unfold Main.app, Main.ServerErrorMiddleware, Main.CORSMiddleware.
  by rewrite Hr.
Qed.

Lemma session_consulted_for_health_only_witness :
  let req :=
    {| Main.method := "POST"; Main.path := "/health";
       Main.req_headers := [("origin", "https://example.org")];
       Main.req_body := "{}" |} in
  Main.app Main.starlette_0_46 (Some tt) Main.unmatched req
  = Main.app Main.starlette_0_46 (@None unit) Main.unmatched req.
Proof.
  intros req.
  apply (session_consulted_for_health_only Main.starlette_0_46 (Some tt) None
           Main.unmatched req).
  intros [Hm _]. discriminate Hm.
Defined.
